(** * anymessage API: team model, tenant middleware and integration save

    A shallow embedding of [api/src/models/team.model.ts] and
    [api/src/controllers/integration.controller/save.post.ts].

    The TypeScript is written against three collaborators that live
    outside these two files: the massive [Database] handle, the Express
    request/response pair and the Stripe helper.  They appear here as
    type classes (the gateway), as a log of the calls issued on them
    (response, [next], console) and, for the response, as the state
    Express 4 keeps of it (status code, what went out, the refusal of a
    second write), so that every function below is the source function
    with its effects made explicit. *)

From Stdlib Require Import ZArith Ascii Lia DecimalString DecimalPos.
From stdpp Require Import base option list strings gmap.

Set Warnings "-register-all".
Local Open Scope Z_scope.

(** ** JavaScript values *)

Module Js.

(** The fragment of JavaScript values the two files manipulate.  Numbers
    are the integers (ids, HTTP status codes); a plain object is a finite
    map from property names to values; arrays only travel through (the
    [providers] of a request body). *)
Inductive value : Type :=
  | VUndefined
  | VNull
  | VBool (b : bool)
  | VNum (n : Z)
  | VStr (s : string)
  | VArr (items : list value)
  | VObj (props : gmap string value).

(** ToBoolean. *)
Definition truthy (v : value) : bool :=
  match v with
  | VUndefined | VNull => false
  | VBool b => b
  | VNum n => negb (n =? 0)
  | VStr s => negb (String.eqb s EmptyString)
  | VArr _ | VObj _ => true
  end.

Definition nullish (v : value) : bool :=
  match v with
  | VUndefined | VNull => true
  | _ => false
  end.

(** [v === s] for a string literal [s]. *)
Definition strict_eq_str (v : value) (s : string) : bool :=
  match v with
  | VStr s' => String.eqb s' s
  | _ => false
  end.

(** [a || b] on values. *)
Definition js_or (a b : value) : value := if truthy a then a else b.

(** Outcome of evaluating something that may throw. *)
Inductive outcome (E A : Type) : Type :=
  | Returned (a : A)
  | Threw (e : E).
Global Arguments Returned {E A} a.
Global Arguments Threw {E A} e.

Definition type_name (v : value) : string :=
  match v with
  | VNull => "null"
  | _ => "undefined"
  end.

(** The [TypeError] the engine raises on [base.prop] when [base] is
    [null] or [undefined] (with the message text of the V8 of the time). *)
Definition TypeError (prop : string) (base : value) : value :=
  VObj (<["name" := VStr "TypeError"]>
        (<["message" := VStr ("Cannot read property '" +:+ prop +:+ "' of "
                               +:+ type_name base)]> ∅)).

(** Property read [base.prop].  Only own properties of plain objects are
    modelled: none of the names read in the source ([status], [message],
    [subdomain], [customer_id], [id], [email], [name], [authentication],
    [providers]) is defined on an array or on the prototypes of the
    primitive types. *)
Definition get (base : value) (prop : string) : outcome value value :=
  match base with
  | VUndefined | VNull => Threw (TypeError prop base)
  | VObj props => Returned (default VUndefined (props !! prop))
  | _ => Returned VUndefined
  end.

(** *** Strings *)

(** Strings are sequences of 8-bit characters.  The separators and the
    character class of the source are ASCII, and no byte of a multi-byte
    character is an ASCII byte, so splitting and class membership agree
    with their UTF-16 counterparts. *)

Fixpoint starts_with (p s : string) : bool :=
  match p, s with
  | EmptyString, _ => true
  | String a p', String b s' => if decide (a = b) then starts_with p' s' else false
  | String _ _, EmptyString => false
  end.

(** [String.prototype.split] for a non-empty separator (the source only
    splits on the literals "." and "://").  [skip] counts the characters
    of a separator occurrence still to be dropped, [cur] is the piece
    being accumulated. *)
Fixpoint split_go (sep : string) (skip : nat) (cur s : string) : list string :=
  match s with
  | EmptyString => [cur]
  | String c s' =>
      match skip with
      | S k => split_go sep k cur s'
      | O =>
          if starts_with sep s
          then cur :: split_go sep (String.length sep - 1)%nat EmptyString s'
          else split_go sep 0 (cur +:+ String c EmptyString) s'
      end
  end.

Definition split (sep s : string) : list string := split_go sep 0 EmptyString s.

(** [sep] occurs somewhere in [s]. *)
Definition occurs (sep s : string) : Prop :=
  exists before after, s = before +:+ sep +:+ after.

(** [occurs], decided. *)
Fixpoint contains (sep s : string) : bool :=
  starts_with sep s ||
  match s with
  | EmptyString => false
  | String _ s' => contains sep s'
  end.

(** The characters of [s] before the first [c] (all of [s] when there is
    none): the leading label of a host name for [c] the dot. *)
Fixpoint before_first (c : ascii) (s : string) : string :=
  match s with
  | EmptyString => EmptyString
  | String a s' => if decide (c = a) then EmptyString else String a (before_first c s')
  end.

(** [arr[i]] on an array of strings: [undefined] past the end. *)
Definition index (arr : list string) (i : nat) : value :=
  match arr !! i with
  | Some s => VStr s
  | None => VUndefined
  end.

(** The method call [base.split(sep)]: a [TypeError] when [base] is
    [null] or [undefined] (and when it is not a string, which has no
    [split]). *)
Definition split_of (sep : string) (base : value) : outcome value (list string) :=
  match base with
  | VStr s => Returned (split sep s)
  | _ => Threw (TypeError "split" base)
  end.

Definition of_option (v : option string) : value :=
  match v with
  | Some s => VStr s
  | None => VUndefined
  end.

(** The falsy values, as the language lists them (NaN apart, which the
    integer numbers do not have). *)
Inductive Falsy : value -> Prop :=
  | Falsy_undefined : Falsy VUndefined
  | Falsy_null : Falsy VNull
  | Falsy_false : Falsy (VBool false)
  | Falsy_zero : Falsy (VNum 0)
  | Falsy_empty : Falsy (VStr EmptyString).

(** Number to string, for the integers (below 10^21 in magnitude, where
    the language prints all the digits). *)
Definition decimal (n : Z) : string := NilEmpty.string_of_int (Z.to_int n).

(** [Array.prototype.join]. *)
Fixpoint join (sep : string) (pieces : list string) : string :=
  match pieces with
  | [] => EmptyString
  | [piece] => piece
  | piece :: rest => piece +:+ sep +:+ join sep rest
  end.

(** ToString: what [RegExp.prototype.test] and string interpolation make
    of a value.  An array prints its elements joined by commas, with
    [null] and [undefined] elements empty; a plain object prints as
    "[object Object]". *)
Fixpoint to_string (v : value) : string :=
  match v with
  | VUndefined => "undefined"
  | VNull => "null"
  | VBool true => "true"
  | VBool false => "false"
  | VNum n => decimal n
  | VStr s => s
  | VArr items =>
      join ","
        (List.map (fun item =>
                     match item with
                     | VUndefined | VNull => EmptyString
                     | _ => to_string item
                     end) items)
  | VObj _ => "[object Object]"
  end.

(** The white space that ToNumber skips around a numeral. *)
Definition is_space (c : ascii) : bool :=
  let n := N_of_ascii c in
  ((9 <=? n) && (n <=? 13))%N || (n =? 32)%N.

Fixpoint skip_spaces (s : string) : string :=
  match s with
  | String c s' => if is_space c then skip_spaces s' else s
  | EmptyString => EmptyString
  end.

Fixpoint all_spaces (s : string) : bool :=
  match s with
  | String c s' => is_space c && all_spaces s'
  | EmptyString => true
  end.

(** The digits at the head of [s], read in base ten after [acc] ([None]
    while no digit was seen), and what follows them. *)
Fixpoint read_digits (acc : option Z) (s : string) : option Z * string :=
  match s with
  | String c s' =>
      let n := N_of_ascii c in
      if ((48 <=? n) && (n <=? 57))%N
      then read_digits (Some (10 * default 0 acc + (Z.of_N n - 48))) s'
      else (acc, s)
  | EmptyString => (acc, EmptyString)
  end.

(** ToNumber of a string, for the numerals that denote integers in plain
    decimal: optional white space, an optional sign, digits, optional
    white space; the empty string is 0.  [None] is NaN.  The other
    notations of the language for a number (a fraction, an exponent, a
    radix prefix, [Infinity]) are not read here and come out as [None]
    too: no status code of the properties below is written that way. *)
Definition string_to_number (s : string) : option Z :=
  let s := skip_spaces s in
  match s with
  | EmptyString => Some 0
  | String c s' =>
      let '(sign, digits) :=
        if decide (c = "-"%char) then (-1, s')
        else if decide (c = "+"%char) then (1, s')
        else (1, s) in
      match read_digits None digits with
      | (Some n, rest) => if all_spaces rest then Some (sign * n) else None
      | (None, _) => None
      end
  end.

(** [v | 0]: ToNumber, then ToInt32 (NaN gives 0, integers wrap around
    modulo 2^32 into the signed range). *)
Definition to_int32 (v : value) : Z :=
  let n :=
    match v with
    | VUndefined => 0
    | VNull => 0
    | VBool b => if b then 1 else 0
    | VNum n => n
    | VStr s => default 0 (string_to_number s)
    | VArr _ | VObj _ => default 0 (string_to_number (to_string v))
    end in
  (n + 2147483648) mod 4294967296 - 2147483648.

(** *** Regular expressions of the shape [/^[...]+$/] *)

Inductive class_item : Type :=
  | CRange (lo hi : ascii)
  | CChar (c : ascii).

Definition item_matches (c : ascii) (i : class_item) : bool :=
  match i with
  | CRange lo hi =>
      (N_of_ascii lo <=? N_of_ascii c)%N && (N_of_ascii c <=? N_of_ascii hi)%N
  | CChar d => bool_decide (c = d)
  end.

Definition class_matches (cl : list class_item) (c : ascii) : bool :=
  existsb (item_matches c) cl.

Fixpoint all_in_class (cl : list class_item) (s : string) : bool :=
  match s with
  | EmptyString => true
  | String c s' => class_matches cl c && all_in_class cl s'
  end.

(** [/^[cl]+$/.test(s)]: without the [m] flag the anchors are the two ends
    of the input, so the whole input is one or more class characters. *)
Definition test_anchored_plus (cl : list class_item) (s : string) : bool :=
  match s with
  | EmptyString => false
  | String _ _ => all_in_class cl s
  end.

(** The characters of a string, and the characters [0-9a-z-] as the
    specification lists them. *)
Definition chars (s : string) : list ascii := String.list_ascii_of_string s.

Definition between (lo hi c : ascii) : Prop :=
  (N_of_ascii lo <= N_of_ascii c)%N /\ (N_of_ascii c <= N_of_ascii hi)%N.

Definition subdomain_char (c : ascii) : Prop :=
  between "0" "9" c \/ between "a" "z" c \/ c = "-"%char.

End Js.

Import Js.

(** ** Effects *)

(** Filters and field sets handed to the [teams] table.  The source uses
    exactly these object literals: [{ subdomain }], [{ id: this.id }],
    [{ subdomain: newURL }] and [{ customer_id }]. *)
Inductive criteria : Type :=
  | BySubdomain (subdomain : value)
  | ById (id : value).

Inductive fields : Type :=
  | SetSubdomain (subdomain : string)
  | SetCustomerId (customer_id : string).

(** Every call the code issues on a collaborator, in program order. *)
Inductive event : Type :=
  | DbFindOne (c : criteria)
  | DbInsert (subdomain : string)
  | DbUpdate (c : criteria) (f : fields)
  | DbQuery (sql : string) (params : list value)
  | StripeHasActiveSubscription (customer_id : value)
  | ConsoleWarn (msg : string)
  | ConsoleError (e : value)
  | ResStatus (code : value)
  | ResJson (body : value)
  | ResSend
  | ResEnd
  | ResSendStatus (code : Z)
  | Next.

(** The massive [Database] handle, as far as the source uses it: the
    [teams] table operations and the raw parameterised [query].  Each call
    runs against the store [S] and either resolves to a value or rejects
    with a store fault. *)
Class Database (S : Type) : Type := {
  teams_findOne : criteria -> S -> outcome value value * S;
  teams_insert : string -> S -> outcome value value * S;
  teams_update : criteria -> fields -> S -> outcome value value * S;
  db_query : string -> list value -> S -> outcome value (list (gmap string value)) * S
}.

(** [hasActiveSubscription] of [lib/StripeService]. *)
Class StripeService (S : Type) : Type := {
  stripe_hasActiveSubscription : value -> S -> outcome value value * S
}.

(** The integration accessor of [models]: an object built from the store
    handle, a team id and a name, with [init] and [save]. *)
Record integration : Type := {
  integration_team : value;
  integration_name : value
}.

Class IntegrationModel (S : Type) : Type := {
  integration_init : integration -> S -> outcome value unit * S;
  integration_save : integration -> value -> value -> S -> outcome value unit * S
}.

(** The world a handler runs in: the store behind [db] and the calls
    issued so far. *)
Record world (S : Type) : Type := World {
  store : S;
  log : list event
}.
Global Arguments World {S} store log.
Global Arguments store {S} w.
Global Arguments log {S} w.

Definition emitted {S} (w : world S) (evs : list event) : world S :=
  World (store w) (log w ++ evs).

(** State and exception monad: [St] is the mutable state, [E] the type of
    thrown things.  An [async] function is run to completion; a rejected
    promise is [Threw]. *)
Definition M (St E A : Type) : Type := St -> outcome E A * St.

Definition ret {St E A} (a : A) : M St E A := fun s => (Returned a, s).
Definition throw {St E A} (e : E) : M St E A := fun s => (Threw e, s).
Definition bind {St E A B} (m : M St E A) (k : A -> M St E B) : M St E B :=
  fun s =>
    match m s with
    | (Returned a, s') => k a s'
    | (Threw e, s') => (Threw e, s')
    end.
Definition try_catch {St E E' A} (m : M St E A) (h : E -> M St E' A) : M St E' A :=
  fun s =>
    match m s with
    | (Returned a, s') => (Returned a, s')
    | (Threw e, s') => h e s'
    end.
Definition of_outcome {St E A} (o : outcome E A) : M St E A := fun s => (o, s).
Definition map_error {St E E' A} (f : E -> E') (m : M St E A) : M St E' A :=
  try_catch m (fun e => throw (f e)).

Declare Scope js_scope.
Delimit Scope js_scope with js.
Notation "'let*' x ':=' m 'in' k" := (bind m (fun x => k))
  (at level 10, x name, m at level 100, k at level 200) : js_scope.
Notation "m ';;;' k" := (bind m (fun _ => k))
  (at level 100, k at level 200, right associativity) : js_scope.
Local Open Scope js_scope.

Section World.
Context {S : Type}.

Definition emit {E} (ev : event) : M (world S) E unit :=
  fun w => (Returned tt, emitted w [ev]).

(** A gateway call: logged, then run against the store. *)
Definition call {A} (ev : event) (op : S -> outcome value A * S) : M (world S) value A :=
  fun w =>
    let '(r, s') := op (store w) in
    (r, World s' (log w ++ [ev])).

(** Run a computation on the world inside a computation that also
    carries an object [O] (the receiver [this], or the request). *)
Definition lift {O E A} (m : M (world S) E A) : M (O * world S) E A :=
  fun '(o, w) => let '(r, w') := m w in (r, (o, w')).

Definition get_obj {O E} : M (O * world S) E O :=
  fun '(o, w) => (Returned o, (o, w)).
Definition set_obj {O E} (f : O -> O) : M (O * world S) E unit :=
  fun '(o, w) => (Returned tt, (f o, w)).
End World.

(** ** The Express response *)

(** The response object of Express 4 on Node, as far as the handlers
    drive it.  [res.status] only assigns [statusCode].  [res.json],
    [res.send] and [res.sendStatus] set headers and hand a body to
    [end]: on a response that was already sent, setting (or removing) a
    header raises [ERR_HTTP_HEADERS_SENT]; on one that was not,
    [writeHead] takes [statusCode | 0] and raises
    [ERR_HTTP_INVALID_STATUS_CODE] unless it lies in 100..999, and a
    response with status 204, 304 or 1xx goes out without the body.  The
    routes of these handlers are POST routes, so neither the HEAD rule
    nor the freshness rule of [res.send] applies. *)
Module Express.

Inductive payload : Type :=
  | NoBody
  | Text (s : string)
  | Json (v : value).

(** [statusCode] is the property as last assigned; [written] is the
    status line and the body that went out, once the response was sent. *)
Record response : Type := Response {
  statusCode : value;
  written : option (Z * payload)
}.

(** A response nothing was written to. *)
Definition fresh : response := Response (VNum 200) None.

(** The error of Node on a header operation ([action] is "set" or
    "remove") after the head of the response went out. *)
Definition headers_sent (action : string) : value :=
  VObj (<["name" := VStr "Error"]>
        (<["code" := VStr "ERR_HTTP_HEADERS_SENT"]>
         (<["message" :=
              VStr ("Cannot " +:+ action +:+ " headers after they are sent to the client")]> ∅))).

Definition ERR_HTTP_HEADERS_SENT : value := headers_sent "set".

(** The error of [writeHead] on a status code out of range; the message
    prints the code as assigned (a number or a string). *)
Definition ERR_HTTP_INVALID_STATUS_CODE (code : value) : value :=
  VObj (<["name" := VStr "RangeError"]>
        (<["code" := VStr "ERR_HTTP_INVALID_STATUS_CODE"]>
         (<["message" := VStr ("Invalid status code: " +:+ to_string code)]> ∅))).

(** Statuses whose response carries no body. *)
Definition bodiless (n : Z) : bool :=
  (n =? 204) || (n =? 304) || ((100 <=? n) && (n <=? 199)).

(** [end(chunk)] on a response not yet sent. *)
Definition deliver (p : payload) (res : response) : outcome value unit * response :=
  let n := to_int32 (statusCode res) in
  if (n <? 100) || (999 <? n)
  then (Threw (ERR_HTTP_INVALID_STATUS_CODE (statusCode res)), res)
  else (Returned tt,
        Response (statusCode res) (Some (n, if bodiless n then NoBody else p))).

(** [res.status(code)]. *)
Definition status (code : value) (res : response) : outcome value unit * response :=
  (Returned tt, Response code (written res)).

(** [res.json(body)]. *)
Definition json (body : value) (res : response) : outcome value unit * response :=
  match written res with
  | Some _ => (Threw ERR_HTTP_HEADERS_SENT, res)
  | None => deliver (Json body) res
  end.

(** [res.send()], without a body: no header is set, so on a response
    already sent it does nothing, unless the status is the number 204 or
    304, for which it removes headers first. *)
Definition send (res : response) : outcome value unit * response :=
  match written res with
  | Some _ =>
      match statusCode res with
      | VNum n => if (n =? 204) || (n =? 304)
                  then (Threw (headers_sent "remove"), res)
                  else (Returned tt, res)
      | _ => (Returned tt, res)
      end
  | None => deliver NoBody res
  end.

(** [res.sendStatus(200)]: assigns the status, then sends its text, "OK",
    as a plain-text body.  The source passes no other code. *)
Definition sendStatus_200 (res : response) : outcome value unit * response :=
  let res' := Response (VNum 200) (written res) in
  match written res with
  | Some _ => (Threw ERR_HTTP_HEADERS_SENT, res')
  | None => deliver (Text "OK") res'
  end.

End Express.

Section ResponseCalls.
Context {S : Type}.

(** A call on [res]: it is logged, then takes effect on the response,
    and may raise. *)
Definition res_call (ev : event)
    (op : Express.response -> outcome value unit * Express.response)
  : M (Express.response * world S) value unit :=
  fun '(res, w) =>
    let '(r, res') := op res in
    (r, (res', World (store w) (log w ++ [ev]))).

Definition res_status (code : value) : M (Express.response * world S) value unit :=
  res_call (ResStatus code) (Express.status code).
Definition res_json (body : value) : M (Express.response * world S) value unit :=
  res_call (ResJson body) (Express.json body).
Definition res_send : M (Express.response * world S) value unit :=
  res_call ResSend Express.send.
Definition res_sendStatus_200 : M (Express.response * world S) value unit :=
  res_call (ResSendStatus 200) Express.sendStatus_200.

(** A handler run on the response of its own request, nothing written to
    it yet (in the source no middleware calls [next()] after it wrote a
    response); the response is dropped at the end. *)
Definition on_fresh_response {A} (m : M (Express.response * world S) value A)
  : M (world S) value A :=
  fun w => let '(r, (_, w')) := m (Express.fresh, w) in (r, w').
End ResponseCalls.

(** ** models/team.model.ts: class TeamModel *)

(** Modelled from the spec: [ModelError] of [models/index] is not among
    the sources; it is the data-access error that wraps its constructor
    argument, and [ModelError.NO_INIT] is its "not initialized" constant.
    It is kept as free constructors. *)
Inductive thrown : Type :=
  | JsThrown (v : value)
  | ModelError_NO_INIT
  | ModelError_message (msg : string)
  | ModelError (e : thrown).

Module TeamModel.

(** The private fields.  [db] is the shared store of the [world]. *)
Record t : Type := Build {
  initialized : bool;
  id : value;
  subdomain : value;
  customer_id : value
}.

(** [constructor(db, id?)]. *)
Definition constructor (id : option Z) : t :=
  {| initialized := false;
     id := match id with Some n => VNum n | None => VUndefined end;
     subdomain := VUndefined;
     customer_id := VUndefined |}.

(** The text passed to [console.warn] in [init]: the word id is quoted. *)
Definition warn_no_team : string :=
  "Cannot find team with passed " +:+ String "034"%char "id" +:+ String "034"%char EmptyString.

Section Methods.
Context {S : Type} `{!Database S} `{!StripeService S}.

Definition db_teams_findOne (c : criteria) : M (world S) thrown value :=
  map_error JsThrown (call (DbFindOne c) (teams_findOne c)).
Definition db_teams_insert (subdomain : string) : M (world S) thrown value :=
  map_error JsThrown (call (DbInsert subdomain) (teams_insert subdomain)).
Definition db_teams_update (c : criteria) (f : fields) : M (world S) thrown value :=
  map_error JsThrown (call (DbUpdate c f) (teams_update c f)).
Definition prop (base : value) (name : string) : M (world S) thrown value :=
  map_error JsThrown (of_outcome (get base name)).

(** [static async available(db, subdomain)]. *)
Definition available (subdomain : string) : M (world S) thrown bool :=
  try_catch
    (let* found := db_teams_findOne (BySubdomain (VStr subdomain)) in
     ret (if truthy found then false else true))
    (fun e => throw (ModelError e)).

(** [static async findTeamByURL(db, url)]. *)
Definition findTeamByURL (url : string) : M (world S) thrown value :=
  let subdomain := index (split "." url) 0 in
  try_catch
    (let* found := db_teams_findOne (BySubdomain subdomain) in
     ret found)
    (fun e => throw (ModelError e)).

(** [async init()]. *)
Definition init : M (t * world S) thrown value :=
  try_catch
    (let* this := get_obj in
     let* team := lift (db_teams_findOne (ById (id this))) in
     let* team_subdomain := lift (prop team "subdomain") in
     (if truthy team_subdomain
      then
        set_obj (fun this => Build (initialized this) (id this) team_subdomain (customer_id this)) ;;;
        let* team_customer_id := lift (prop team "customer_id") in
        set_obj (fun this => Build (initialized this) (id this) (subdomain this) team_customer_id)
      else lift (emit (ConsoleWarn warn_no_team))) ;;;
     set_obj (fun this => Build true (id this) (subdomain this) (customer_id this)) ;;;
     let* this := get_obj in
     ret (id this))
    (fun e => throw (ModelError e)).

(** [async create(newURL)]. *)
Definition create (newURL : string) : M (t * world S) thrown value :=
  try_catch
    (let* newTeam := lift (db_teams_insert newURL) in
     if truthy newTeam
     then
       let* new_id := lift (prop newTeam "id") in
       set_obj (fun this => Build (initialized this) new_id (subdomain this) (customer_id this)) ;;;
       set_obj (fun this => Build true (id this) (subdomain this) (customer_id this)) ;;;
       let* this := get_obj in
       ret (id this)
     else throw (ModelError_message "Team was not created. Please verify model integrity"))
    (fun e => throw (ModelError e)).

(** [getSubdomain()]. *)
Definition getSubdomain : M (t * world S) thrown value :=
  let* this := get_obj in
  if initialized this then ret (subdomain this)
  else throw ModelError_NO_INIT.

(** [async setSubdomain(newURL)]. *)
Definition setSubdomain (newURL : string) : M (t * world S) thrown value :=
  let* this := get_obj in
  if initialized this
  then
    set_obj (fun this => Build (initialized this) (id this) (VStr newURL) (customer_id this)) ;;;
    try_catch
      (let* this := get_obj in
       lift (db_teams_update (ById (id this)) (SetSubdomain newURL)))
      (fun e => throw (ModelError e))
  else throw ModelError_NO_INIT.

(** [getCustomerID()]. *)
Definition getCustomerID : M (t * world S) thrown value :=
  let* this := get_obj in
  if initialized this then ret (customer_id this)
  else throw ModelError_NO_INIT.

(** [async setCustomerID(customer_id)]. *)
Definition setCustomerID (new_customer_id : string) : M (t * world S) thrown value :=
  let* this := get_obj in
  if initialized this
  then
    set_obj (fun this => Build (initialized this) (id this) (subdomain this) (VStr new_customer_id)) ;;;
    try_catch
      (let* this := get_obj in
       lift (db_teams_update (ById (id this)) (SetCustomerId new_customer_id)))
      (fun e => throw (ModelError e))
  else throw ModelError_NO_INIT.

(** [async hasActiveSubscription()]. *)
Definition hasActiveSubscription : M (t * world S) thrown value :=
  let* this := get_obj in
  if initialized this
  then
    lift (map_error JsThrown
            (call (StripeHasActiveSubscription (customer_id this))
                  (stripe_hasActiveSubscription (customer_id this))))
  else throw ModelError_NO_INIT.

End Methods.
End TeamModel.

(** ** models/team.model.ts: middleware *)

(** [interface ITeamURLRequest]: the JSON-parsed body with its optional
    [newURL], [undefined] when absent.  The interface declares a string;
    the parsed JSON can hold any value there. *)
Record ITeamURLRequestBody : Type := { newURL : value }.
Record ITeamURLRequest : Type := { url_body : ITeamURLRequestBody }.

(** [interface ITeam] and [interface ITeamRequest], with the fields of
    the Express request that the code reads: [headers.origin],
    [user] (set by the authentication layer), [body], and the [team]
    slot the middleware fills in. *)
Record ITeam : Type := { team_id : value; team_subdomain : value }.

Record ITeamRequest : Type := {
  origin : option string;
  user : value;
  body : value;
  team : option ITeam
}.

Definition set_team (tm : ITeam) (req : ITeamRequest) : ITeamRequest :=
  {| origin := origin req; user := user req; body := body req; team := Some tm |}.

(** A request from [email] with the given [Origin] header, no tenant
    attached yet. *)
Definition request_from (o : option string) (email : string) (b : value) : ITeamRequest :=
  {| origin := o; user := VObj {[ "email" := VStr email ]}; body := b; team := None |}.

(** The request of the save scenario: tenant 7 attached, and the body
    [{name: "slack", authentication: {token: "x"}, providers: ["slack"]}]. *)
Definition save_request : ITeamRequest :=
  {| origin := Some "https://acme.example.com";
     user := VObj {[ "email" := VStr "ann@acme.test" ]};
     body := VObj (<["name" := VStr "slack"]>
                   (<["authentication" := VObj {[ "token" := VStr "x" ]}]>
                    (<["providers" := VArr [VStr "slack"]]> ∅)));
     team := Some {| team_id := VNum 7; team_subdomain := VStr "acme" |} |}.

(** An error carrying [status = 409] and [message = "duplicate"]. *)
Definition duplicate_error : value :=
  VObj (<["status" := VNum 409]> (<["message" := VStr "duplicate"]> ∅)).

(** The character class of [/^[0-9a-z\-]+$/]. *)
Definition subdomain_class : list class_item :=
  [CRange "0" "9"; CRange "a" "z"; CChar "-"].

Definition error_body (msg : string) : value :=
  VObj {[ "error" := VStr msg ]}.

Definition msg_required : string := "newURL is required".
Definition msg_charset : string :=
  "newURL can only conatain lowercase letters, numbers and dashes".

(** The join of [verifySubdomain] (the template literal, with its line
    breaks and indentation collapsed to single spaces). *)
Definition subdomain_sql : string :=
  "SELECT teams.id FROM users LEFT JOIN teams ON users.team_id = teams.id WHERE teams.subdomain = $1 AND users.email = $2".

Section Middleware.
Context {S : Type} `{!Database S}.

(** [verifyTeamName(req, res, next)], with [res] the object of the
    computation. *)
Definition verifyTeamName (req : ITeamURLRequest)
  : M (Express.response * world S) value unit :=
  let passed := true in
  let* passed :=
    (if negb (truthy (newURL (url_body req)))
     then
       res_status (VNum 400) ;;;
       res_json (error_body msg_required) ;;;
       ret false
     else ret passed) in
  let* passed :=
    (if negb (test_anchored_plus subdomain_class (to_string (newURL (url_body req))))
     then
       res_status (VNum 400) ;;;
       res_json (error_body msg_charset) ;;;
       ret false
     else ret passed) in
  if passed then lift (emit Next) else ret tt.

(** [async verifySubdomain(req, res, next)].  The request is the
    mutable object of the computation: [req.team = ...] updates it. *)
Definition verifySubdomain : M (ITeamRequest * world S) value unit :=
  let* req := get_obj in
  let* parts := of_outcome (split_of "://" (of_option (origin req))) in
  let* labels := of_outcome (split_of "." (index parts 1)) in
  let subdomain := index labels 0 in
  if truthy subdomain && negb (strict_eq_str subdomain "www")
  then
    try_catch
      (let* email := of_outcome (get (user req) "email") in
       let* data := lift (call (DbQuery subdomain_sql [subdomain; email])
                               (db_query subdomain_sql [subdomain; email])) in
       match data with
       | [] =>
           lift (emit (ResStatus (VNum 403))) ;;;
           lift (emit ResEnd)
       | row :: _ =>
           let id := default VUndefined (row !! "id") in
           set_obj (set_team {| team_id := id; team_subdomain := subdomain |}) ;;;
           lift (emit Next)
       end)
      (fun e =>
         lift (emit (ConsoleError e)) ;;;
         lift (emit (ResStatus (VNum 500))) ;;;
         lift (emit ResEnd))
  else lift (emit Next).
End Middleware.

(** ** controllers/integration.controller/save.post.ts *)

Section Controller.
Context {S : Type} `{!IntegrationModel S}.

(** A call on the integration accessor. *)
Definition run {A} (op : S -> outcome value A * S) : M (world S) value A :=
  fun w => let '(r, s') := op (store w) in (r, World s' (log w)).

(** [req.team.id]. *)
Definition req_team_id (req : ITeamRequest) : outcome value value :=
  match team req with
  | Some tm => Returned (team_id tm)
  | None => Threw (TypeError "id" VUndefined)
  end.

(** The statements of the [try] block before [res.sendStatus]. *)
Definition save_integration (req : ITeamRequest) : M (world S) value unit :=
  let* id := of_outcome (req_team_id req) in
  let* name := of_outcome (get (body req) "name") in
  let integration := {| integration_team := id; integration_name := name |} in
  run (integration_init integration) ;;;
  let* authentication := of_outcome (get (body req) "authentication") in
  let* providers := of_outcome (get (body req) "providers") in
  run (integration_save integration authentication providers).

(** The [catch (e)] block. *)
Definition save_failed (e : value) : M (Express.response * world S) value unit :=
  lift (emit (ConsoleError e)) ;;;
  let* status := of_outcome (get e "status") in
  res_status (js_or status (VNum 500)) ;;;
  let* status := of_outcome (get e "status") in
  let* cond := (if truthy status then of_outcome (get e "message") else ret status) in
  if truthy cond
  then
    let* message := of_outcome (get e "message") in
    res_json (VObj {[ "error" := message ]})
  else res_send.

(** [postSave(req, res)], with [res] the object of the computation. *)
Definition postSave_on_res (req : ITeamRequest)
  : M (Express.response * world S) value unit :=
  try_catch
    (lift (save_integration req) ;;;
     res_sendStatus_200)
    save_failed.

(** [postSave] on the response of its request. *)
Definition postSave (req : ITeamRequest) : M (world S) value unit :=
  on_fresh_response (postSave_on_res req).
End Controller.

(** ** A relational store behind the gateway *)

(** The gateway is a third-party library; to run the model functions on
    data, the store is given the relational reading of its interface
    ([findOne(filter) -> row|null], [insert(fields) -> row],
    [update(filter, fields) -> row], [query(sql, params) -> rows]): a
    [teams] and a [users] table, a serial for new ids, and a fault that,
    when set, makes every call reject. *)
Module TableStore.

Record team_row : Type := {
  row_id : Z;
  row_subdomain : string;
  row_customer_id : value
}.

Record user_row : Type := {
  user_email : string;
  user_team_id : Z
}.

Record tables : Type := {
  teams : list team_row;
  users : list user_row;
  serial : Z;
  fault : option value
}.

Definition row_value (r : team_row) : value :=
  VObj (<["id" := VNum (row_id r)]>
        (<["subdomain" := VStr (row_subdomain r)]>
         (<["customer_id" := row_customer_id r]> ∅))).

Definition matches (c : criteria) (r : team_row) : bool :=
  match c with
  | BySubdomain (VStr s) => String.eqb (row_subdomain r) s
  | ById (VNum n) => row_id r =? n
  | _ => false
  end.

Definition guarded {A} (d : tables) (k : outcome value A * tables) : outcome value A * tables :=
  match fault d with
  | Some e => (Threw e, d)
  | None => k
  end.

Definition findOne (c : criteria) (d : tables) : outcome value value * tables :=
  guarded d
    (Returned (match List.find (matches c) (teams d) with
               | Some r => row_value r
               | None => VNull
               end), d).

(** The row an insert adds (its id is the next serial, it has no
    customer yet) and the tables afterwards. *)
Definition inserted (subdomain : string) (d : tables) : team_row :=
  {| row_id := serial d; row_subdomain := subdomain; row_customer_id := VNull |}.

Definition after_insert (subdomain : string) (d : tables) : tables :=
  {| teams := teams d ++ [inserted subdomain d]; users := users d;
     serial := serial d + 1; fault := fault d |}.

Definition insert (subdomain : string) (d : tables) : outcome value value * tables :=
  guarded d (Returned (row_value (inserted subdomain d)), after_insert subdomain d).

Definition apply_fields (f : fields) (r : team_row) : team_row :=
  match f with
  | SetSubdomain s =>
      {| row_id := row_id r; row_subdomain := s; row_customer_id := row_customer_id r |}
  | SetCustomerId c =>
      {| row_id := row_id r; row_subdomain := row_subdomain r; row_customer_id := VStr c |}
  end.

Definition update (c : criteria) (f : fields) (d : tables) : outcome value value * tables :=
  let teams' := List.map (fun r => if matches c r then apply_fields f r else r) (teams d) in
  guarded d
    (Returned (match List.find (matches c) (teams d) with
               | Some r => row_value (apply_fields f r)
               | None => VNull
               end),
     {| teams := teams'; users := users d; serial := serial d; fault := fault d |}).

(** The one statement the source sends through [query]: the ids of the
    teams with the given subdomain that a user with the given email
    belongs to. *)
Definition join_rows (subdomain email : string) (d : tables) : list (gmap string value) :=
  u ← users d;
  r ← teams d;
  if (user_team_id u =? row_id r) && String.eqb (row_subdomain r) subdomain
     && String.eqb (user_email u) email
  then [ {[ "id" := VNum (row_id r) ]} ] else [].

Definition query (sql : string) (params : list value) (d : tables)
  : outcome value (list (gmap string value)) * tables :=
  guarded d
    (if String.eqb sql subdomain_sql
     then match params with
          | [VStr subdomain; VStr email] => (Returned (join_rows subdomain email d), d)
          | _ => (Returned [], d)
          end
     else (Threw (VStr "syntax error"), d)).

#[global] Instance database : Database tables := {
  teams_findOne := findOne;
  teams_insert := insert;
  teams_update := update;
  db_query := query
}.

(** Billing is not part of the store: no customer has a subscription. *)
#[global] Instance stripe : StripeService tables := {
  stripe_hasActiveSubscription := fun _ d => guarded d (Returned (VBool false), d)
}.

(** An integration accessor whose [save] rejects with the store's fault. *)
#[global] Instance integrations : IntegrationModel tables := {
  integration_init := fun _ d => (Returned tt, d);
  integration_save := fun _ _ _ d => guarded d (Returned tt, d)
}.

Definition empty : tables :=
  {| teams := []; users := []; serial := 1; fault := None |}.

(** One team, "acme" with id 7, and one of its users. *)
Definition acme : tables :=
  {| teams := [ {| row_id := 7; row_subdomain := "acme"; row_customer_id := VNull |} ];
     users := [ {| user_email := "ann@acme.test"; user_team_id := 7 |} ];
     serial := 8;
     fault := None |}.

(** A store whose every call rejects with [e]. *)
Definition failing (e : value) : tables :=
  {| teams := []; users := []; serial := 1; fault := Some e |}.

End TableStore.

(** ** Further stores and predicates *)

(** A gateway with nothing behind it: every table call resolves to
    [null] and every query to no rows. *)
Module BlankStore.

#[global] Instance database : Database unit := {
  teams_findOne := fun _ s => (Returned VNull, s);
  teams_insert := fun _ s => (Returned VNull, s);
  teams_update := fun _ _ s => (Returned VNull, s);
  db_query := fun _ _ s => (Returned [], s)
}.

End BlankStore.

(** A store holding one team row whose subdomain is the empty string. *)
Definition unnamed_team_store : TableStore.tables :=
  {| TableStore.teams :=
       [ {| TableStore.row_id := 3; TableStore.row_subdomain := EmptyString;
            TableStore.row_customer_id := VNull |} ];
     TableStore.users := [];
     TableStore.serial := 4;
     TableStore.fault := None |}.


(** What a setter hands back given the store's answer to its update:
    the row on success, the fault wrapped in a [ModelError] otherwise. *)
Definition wrapped (r : outcome value value) : outcome thrown value :=
  match r with
  | Returned v => Returned v
  | Threw e => Threw (ModelError (JsThrown e))
  end.

(** Primary-key discipline of the [teams] table: ids are unique, and the
    serial is ahead of every id in use. *)
Definition unique_ids (d : TableStore.tables) : Prop :=
  forall r1 r2,
    r1 ∈ TableStore.teams d -> r2 ∈ TableStore.teams d ->
    TableStore.row_id r1 = TableStore.row_id r2 -> r1 = r2.

Definition serial_ahead (d : TableStore.tables) : Prop :=
  forall r, r ∈ TableStore.teams d -> TableStore.row_id r < TableStore.serial d.

(** * Properties *)

(** ** Strings: [split] *)

Lemma append_cons (c : ascii) (s t : string) : String c s +:+ t = String c (s +:+ t).
Proof. reflexivity. Qed.

Lemma append_empty_l (s : string) : EmptyString +:+ s = s.
Proof. reflexivity. Qed.

Lemma append_empty_r (s : string) : s +:+ EmptyString = s.
Proof. induction s as [|c s IH]; [reflexivity | now rewrite append_cons, IH]. Qed.

Lemma append_assoc (a b c : string) : (a +:+ b) +:+ c = a +:+ (b +:+ c).
Proof. induction a as [|x a IH]; [reflexivity | now rewrite !append_cons, IH]. Qed.

Lemma append_snoc (cur : string) (c : ascii) (s : string) :
  (cur +:+ String c EmptyString) +:+ s = cur +:+ String c s.
Proof. now rewrite append_assoc. Qed.

Lemma starts_with_spec (p s : string) :
  starts_with p s = true <-> exists rest, s = p +:+ rest.
Proof.
  revert s; induction p as [|a p IH]; intros s; simpl.
  - split; [intros _; now exists s | reflexivity].
  - destruct s as [|b s].
    + split; [discriminate | intros [rest H]; discriminate].
    + destruct (decide (a = b)) as [->|Hne].
      * rewrite IH. split; intros [rest H]; exists rest.
        -- now rewrite append_cons, H.
        -- rewrite append_cons in H. now inversion H.
      * split; [discriminate|].
        intros [rest H]. rewrite append_cons in H. congruence.
Qed.

Lemma occurs_tail (sep : string) (c : ascii) (s : string) :
  occurs sep s -> occurs sep (String c s).
Proof. intros (b & a & ->). now exists (String c b), a. Qed.

Lemma occurs_here (sep s : string) : starts_with sep s = true -> occurs sep s.
Proof. rewrite starts_with_spec. intros [rest ->]. now exists EmptyString, rest. Qed.

Lemma contains_spec (sep s : string) : contains sep s = true <-> occurs sep s.
Proof.
  induction s as [|c s IH]; cbn [contains]; rewrite orb_true_iff.
  - split.
    + intros [H|H]; [now apply occurs_here | discriminate].
    + intros (b & a & H). left. apply starts_with_spec. exists a.
      destruct b as [|x b]; [exact H | discriminate].
  - rewrite IH. split.
    + intros [H|H]; [now apply occurs_here | now apply occurs_tail].
    + intros (b & a & H). destruct b as [|x b].
      * left. apply starts_with_spec. now exists a.
      * right. rewrite append_cons in H. inversion H. now exists b, a.
Qed.

Lemma not_occurs (sep s : string) : contains sep s = false -> ~ occurs sep s.
Proof. intros H Hocc. apply contains_spec in Hocc. congruence. Qed.

(** [split] never returns the empty array, and with an occurrence of a
    non-empty separator it returns at least two pieces: the element at
    index 1 is a string. *)
Lemma split_go_length (sep : string) (skip : nat) (cur s : string) :
  (1 <= length (split_go sep skip cur s))%nat.
Proof.
  revert skip cur; induction s as [|c s IH]; intros skip cur; cbn [split_go].
  - cbn. lia.
  - destruct skip as [|k]; [|apply IH].
    destruct (starts_with sep (String c s)); [cbn [length]; lia | apply IH].
Qed.

Lemma split_go_present (sep cur s : string) :
  sep <> EmptyString -> occurs sep s -> (2 <= length (split_go sep 0 cur s))%nat.
Proof.
  intros Hsep. revert cur; induction s as [|c s IH]; intros cur Hocc.
  - destruct Hocc as (b & a & H). destruct b, sep; try discriminate. now destruct Hsep.
  - cbn [split_go]. destruct (starts_with sep (String c s)) eqn:Hsw.
    + cbn [length].
      pose proof (split_go_length sep (String.length sep - 1) EmptyString s). lia.
    + apply IH. destruct Hocc as (b & a & H). destruct b as [|x b].
      * rewrite append_empty_l in H.
        assert (starts_with sep (String c s) = true) as Hyes
          by (apply starts_with_spec; now exists a).
        congruence.
      * rewrite append_cons in H. inversion H. now exists b, a.
Qed.

Lemma split_present (sep s : string) :
  sep <> EmptyString -> occurs sep s -> exists piece, index (split sep s) 1 = VStr piece.
Proof.
  intros Hsep Hocc. unfold index, split.
  pose proof (split_go_present sep EmptyString s Hsep Hocc) as Hlen.
  destruct (split_go sep 0 EmptyString s) as [|p0 [|p1 l]]; cbn [length] in Hlen; try lia.
  now exists p1.
Qed.

(** Without an occurrence of the separator the input comes back whole. *)
Lemma split_go_absent (sep cur s : string) :
  ~ occurs sep s -> split_go sep 0 cur s = [cur +:+ s].
Proof.
  revert cur; induction s as [|c s IH]; intros cur Hno; simpl.
  - now rewrite append_empty_r.
  - destruct (starts_with sep (String c s)) eqn:Hsw.
    + destruct Hno. now apply occurs_here.
    + rewrite IH, append_snoc; [reflexivity|].
      intros Hocc. apply Hno. now apply occurs_tail.
Qed.

Lemma split_absent (sep s : string) : ~ occurs sep s -> split sep s = [s].
Proof. intros H. unfold split. now rewrite split_go_absent. Qed.

Lemma split_go_head (c : ascii) (cur s : string) :
  split_go (String c EmptyString) 0 cur s !! 0%nat = Some (cur +:+ before_first c s).
Proof.
  revert cur; induction s as [|a s IH]; intros cur; simpl.
  - now rewrite append_empty_r.
  - destruct (decide (c = a)) as [->|Hne]; simpl.
    + now rewrite append_empty_r.
    + now rewrite IH, append_snoc.
Qed.

Lemma split_head (c : ascii) (s : string) :
  index (split (String c EmptyString) s) 0 = VStr (before_first c s).
Proof. unfold index, split. now rewrite split_go_head. Qed.

Lemma before_first_append (c : ascii) (label rest : string) :
  ~ occurs (String c EmptyString) label ->
  before_first c (label +:+ String c rest) = label.
Proof.
  induction label as [|a l IH]; intros Hno; simpl.
  - now rewrite decide_True.
  - destruct (decide (c = a)) as [->|Hne].
    + destruct Hno. now exists EmptyString, l.
    + rewrite IH; [reflexivity|].
      intros Hocc. apply Hno. now apply occurs_tail.
Qed.

(** ** The character class *)

Lemma class_matches_spec (c : ascii) :
  class_matches subdomain_class c = true <-> subdomain_char c.
Proof.
  unfold class_matches, subdomain_class, subdomain_char, between.
  cbn [existsb item_matches].
  rewrite !orb_true_iff, !andb_true_iff, !N.leb_le, bool_decide_eq_true.
  intuition discriminate.
Qed.

Lemma all_in_class_spec (s : string) :
  all_in_class subdomain_class s = true <-> forall c, c ∈ chars s -> subdomain_char c.
Proof.
  unfold chars. induction s as [|a s IH]; cbn [all_in_class String.list_ascii_of_string].
  - split; [intros _ c Hc; inversion Hc | reflexivity].
  - rewrite andb_true_iff, IH, class_matches_spec. split.
    + intros [Ha Hs] c Hc. apply elem_of_cons in Hc as [->|Hc]; auto.
    + intros H. split; [apply H; left | intros c Hc; apply H; now right].
Qed.

(** The regular expression accepts exactly the non-empty strings over
    the class. *)
Lemma test_subdomain_spec (s : string) :
  test_anchored_plus subdomain_class s = true
  <-> s <> EmptyString /\ forall c, c ∈ chars s -> subdomain_char c.
Proof.
  destruct s as [|a s].
  - simpl. split; [discriminate | intros [H _]; now destruct H].
  - unfold test_anchored_plus. rewrite all_in_class_spec. split.
    + intros H. split; [discriminate | exact H].
    + intros [_ H]. exact H.
Qed.

(** ** The team accessor *)

#[local] Arguments TypeError : simpl never.
#[local] Arguments TableStore.row_value : simpl never.
#[local] Arguments error_body : simpl never.

Ltac unfold_monad :=
  cbv beta iota zeta delta
    [bind ret throw try_catch map_error of_outcome lift get_obj set_obj emit
     call emitted].

Section TeamModelFacts.
Context {S : Type} `{!Database S} `{!StripeService S}.

(** A store fault met by [available] comes back wrapped. *)
Lemma available_fault (subdomain : string) (w : world S) (e : value) (s' : S) :
  teams_findOne (BySubdomain (VStr subdomain)) (store w) = (Threw e, s') ->
  TeamModel.available subdomain w
  = (Threw (ModelError (JsThrown e)),
     World s' (log w ++ [DbFindOne (BySubdomain (VStr subdomain))])).
Proof.
  intros H. unfold TeamModel.available, TeamModel.db_teams_findOne.
  unfold_monad. now rewrite H.
Qed.

Lemma available_found (subdomain : string) (w : world S) (found : value) (s' : S) :
  teams_findOne (BySubdomain (VStr subdomain)) (store w) = (Returned found, s') ->
  TeamModel.available subdomain w
  = (Returned (negb (truthy found)),
     World s' (log w ++ [DbFindOne (BySubdomain (VStr subdomain))])).
Proof.
  intros H. unfold TeamModel.available, TeamModel.db_teams_findOne.
  unfold_monad. rewrite H. now destruct (truthy found).
Qed.

(** [init] when the store answers [null] or [undefined]: reading
    [team.subdomain] raises, the [catch] wraps the [TypeError], and
    neither the warning nor [initialized = true] is reached. *)
Lemma init_no_row (this : TeamModel.t) (w : world S) (team : value) (s' : S) :
  teams_findOne (ById (TeamModel.id this)) (store w) = (Returned team, s') ->
  nullish team = true ->
  TeamModel.init (this, w)
  = (Threw (ModelError (JsThrown (TypeError "subdomain" team))),
     (this, World s' (log w ++ [DbFindOne (ById (TeamModel.id this))]))).
Proof.
  intros H Hnull. unfold TeamModel.init, TeamModel.db_teams_findOne, TeamModel.prop.
  unfold_monad. rewrite H.
  destruct team; try discriminate; reflexivity.
Qed.

(** [init] when the store answers with an object whose [subdomain] is
    missing or empty: the branch that warns and still marks the
    accessor ready. *)
Lemma init_row_without_subdomain
    (this : TeamModel.t) (w : world S) (props : gmap string value) (s' : S) :
  teams_findOne (ById (TeamModel.id this)) (store w) = (Returned (VObj props), s') ->
  truthy (default VUndefined (props !! "subdomain")) = false ->
  TeamModel.init (this, w)
  = (Returned (TeamModel.id this),
     (TeamModel.Build true (TeamModel.id this) (TeamModel.subdomain this)
        (TeamModel.customer_id this),
      World s' (log w ++ [DbFindOne (ById (TeamModel.id this));
                          ConsoleWarn TeamModel.warn_no_team]))).
Proof.
  intros H Hfalsy. unfold TeamModel.init, TeamModel.db_teams_findOne, TeamModel.prop.
  unfold_monad. rewrite H. cbn [get]. rewrite Hfalsy. cbn.
  now rewrite <- app_assoc.
Qed.

(** [init] on a row with a subdomain: the fields are cached and the
    accessor is ready. *)
Lemma init_row_found
    (this : TeamModel.t) (w : world S) (props : gmap string value) (s' : S) :
  teams_findOne (ById (TeamModel.id this)) (store w) = (Returned (VObj props), s') ->
  truthy (default VUndefined (props !! "subdomain")) = true ->
  TeamModel.init (this, w)
  = (Returned (TeamModel.id this),
     (TeamModel.Build true (TeamModel.id this)
        (default VUndefined (props !! "subdomain"))
        (default VUndefined (props !! "customer_id")),
      World s' (log w ++ [DbFindOne (ById (TeamModel.id this))]))).
Proof.
  intros H Htruthy. unfold TeamModel.init, TeamModel.db_teams_findOne, TeamModel.prop.
  unfold_monad. rewrite H. cbn [get]. rewrite Htruthy. reflexivity.
Qed.
(** An [init] or a [create] that does not complete leaves the accessor
    as it was; in particular [initialized] is not set. *)
Lemma init_threw_same (this this' : TeamModel.t) (w w' : world S) (e : thrown) :
  TeamModel.init (this, w) = (Threw e, (this', w')) -> this' = this.
Proof.
  unfold TeamModel.init, TeamModel.db_teams_findOne, TeamModel.prop.
  unfold_monad.
  destruct (teams_findOne (ById (TeamModel.id this)) (store w)) as [[team|e0] s'].
  - destruct team as [| |b|n|s|items|props]; cbn [get truthy]; try congruence.
    destruct (truthy (default VUndefined (props !! "subdomain"))); congruence.
  - congruence.
Qed.

Lemma create_threw_same
    (newURL : string) (this this' : TeamModel.t) (w w' : world S) (e : thrown) :
  TeamModel.create newURL (this, w) = (Threw e, (this', w')) -> this' = this.
Proof.
  unfold TeamModel.create, TeamModel.db_teams_insert, TeamModel.prop.
  unfold_monad.
  destruct (teams_insert newURL (store w)) as [[newTeam|e0] s'].
  - destruct newTeam as [| |b|n|s|items|props]; cbn [get truthy]; try congruence.
    + destruct b; congruence.
    + destruct (negb (n =? 0)); congruence.
    + destruct (negb (String.eqb s EmptyString)); congruence.
  - congruence.
Qed.
End TeamModelFacts.

(** ** The team accessor on the relational store *)

Section OnTables.
Import TableStore.

Lemma find_by_subdomain_none (rows : list team_row) (s : string) :
  List.find (matches (BySubdomain (VStr s))) rows = None
  <-> forall r, r ∈ rows -> row_subdomain r <> s.
Proof.
  induction rows as [|r rows IH]; cbn [List.find matches].
  - split; [intros _ r Hr; inversion Hr | reflexivity].
  - destruct (String.eqb_spec (row_subdomain r) s) as [Heq|Hne].
    + split; [discriminate|]. intros H. destruct (H r); [left | exact Heq].
    + rewrite IH. split.
      * intros H r' Hr'. apply elem_of_cons in Hr' as [->|Hr']; auto.
      * intros H r' Hr'. apply H. now right.
Qed.

Lemma find_by_subdomain_some (rows : list team_row) (s : string) (r : team_row) :
  List.find (matches (BySubdomain (VStr s))) rows = Some r ->
  r ∈ rows /\ row_subdomain r = s.
Proof.
  intros H. apply List.find_some in H as [Hin Hm].
  split; [now apply list_elem_of_In|].
  cbn [matches] in Hm. now apply String.eqb_eq.
Qed.

(** After inserting a subdomain no earlier row carries, looking that
    subdomain up finds the inserted row. *)
Lemma find_after_insert (rows : list team_row) (r : team_row) :
  (forall r', r' ∈ rows -> row_subdomain r' <> row_subdomain r) ->
  List.find (matches (BySubdomain (VStr (row_subdomain r)))) (rows ++ [r]) = Some r.
Proof.
  induction rows as [|r0 rows IH]; intros Hfresh; cbn [app List.find matches].
  - now rewrite String.eqb_refl.
  - destruct (String.eqb_spec (row_subdomain r0) (row_subdomain r)) as [Heq|Hne].
    + destruct (Hfresh r0); [left | exact Heq].
    + apply IH. intros r' Hr'. apply Hfresh. now right.
Qed.

Lemma row_value_truthy (r : team_row) : truthy (row_value r) = true.
Proof. reflexivity. Qed.

Lemma row_value_id (r : team_row) : get (row_value r) "id" = Returned (VNum (row_id r)).
Proof. reflexivity. Qed.

Lemma insert_ok (subdomain : string) (d : tables) :
  fault d = None ->
  teams_insert subdomain d
  = (Returned (row_value (inserted subdomain d)), after_insert subdomain d).
Proof.
  intros H. change (teams_insert subdomain d) with (insert subdomain d).
  unfold insert, guarded. now rewrite H.
Qed.

Lemma findOne_ok (c : criteria) (d : tables) :
  fault d = None ->
  teams_findOne c d
  = (Returned (match List.find (matches c) (teams d) with
               | Some r => row_value r
               | None => VNull
               end), d).
Proof.
  intros H. change (teams_findOne c d) with (findOne c d).
  unfold findOne, guarded. now rewrite H.
Qed.

Lemma findOne_fault (c : criteria) (d : tables) (e : value) :
  fault d = Some e -> teams_findOne c d = (Threw e, d).
Proof.
  intros H. change (teams_findOne c d) with (findOne c d).
  unfold findOne, guarded. now rewrite H.
Qed.

(** [create] on a working store. *)
Lemma create_ok (d : tables) (this : TeamModel.t) (lg : list event) (newURL : string) :
  fault d = None ->
  TeamModel.create newURL (this, World d lg)
  = (Returned (VNum (serial d)),
     (TeamModel.Build true (VNum (serial d)) (TeamModel.subdomain this)
        (TeamModel.customer_id this),
      World (after_insert newURL d) (lg ++ [DbInsert newURL]))).
Proof.
  intros Hok.
  unfold TeamModel.create, TeamModel.db_teams_insert, TeamModel.prop.
  unfold_monad. cbn [store log].
  rewrite insert_ok by exact Hok.
  now rewrite row_value_truthy, row_value_id.
Qed.

(** [findTeamByURL] on a working store: the first row whose subdomain
    is the leading label of the host, or [null]. *)
Lemma findTeamByURL_ok (d : tables) (lg : list event) (url : string) :
  fault d = None ->
  TeamModel.findTeamByURL url (World d lg)
  = (Returned (match List.find (matches (BySubdomain (VStr (before_first "." url))))
                       (teams d) with
               | Some r => row_value r
               | None => VNull
               end),
     World d (lg ++ [DbFindOne (BySubdomain (VStr (before_first "." url)))])).
Proof.
  intros Hok.
  unfold TeamModel.findTeamByURL, TeamModel.db_teams_findOne.
  rewrite split_head. unfold_monad. cbn [store log].
  now rewrite findOne_ok by exact Hok.
Qed.

(** [create] followed by [findTeamByURL] on a host whose leading label
    is the new subdomain, for any label without a dot. *)
Lemma create_then_find
    (d : tables) (this : TeamModel.t) (lg : list event) (label rest : string) :
  fault d = None ->
  ~ occurs "." label ->
  (forall r, r ∈ teams d -> row_subdomain r <> label) ->
  exists (this' : TeamModel.t) (w' w'' : world tables) (found : value),
    TeamModel.create label (this, World d lg) = (Returned (VNum (serial d)), (this', w'))
    /\ TeamModel.initialized this' = true
    /\ TeamModel.id this' = VNum (serial d)
    /\ TeamModel.findTeamByURL (label +:+ String "." rest) w' = (Returned found, w'')
    /\ get found "id" = Returned (VNum (serial d))
    /\ get found "subdomain" = Returned (VStr label).
Proof.
  intros Hok Hdot Hfresh.
  eexists _, _, _, (row_value (inserted label d)).
  split; [now apply create_ok|].
  split; [reflexivity|]. split; [reflexivity|].
  split; [|split; reflexivity].
  rewrite findTeamByURL_ok by exact Hok.
  rewrite before_first_append by exact Hdot.
  change (teams (after_insert label d)) with (teams d ++ [inserted label d]).
  pose proof (find_after_insert (teams d) (inserted label d) Hfresh) as Hfound.
  cbn [row_subdomain inserted] in Hfound. now rewrite Hfound.
Qed.
Lemma find_by_id_none (rows : list team_row) (n : Z) :
  (forall r, r ∈ rows -> row_id r <> n) ->
  List.find (matches (ById (VNum n))) rows = None.
Proof.
  induction rows as [|r rows IH]; intros H; cbn [List.find matches]; [reflexivity|].
  destruct (Z.eqb_spec (row_id r) n) as [Heq|Hne].
  - destruct (H r); [left | exact Heq].
  - apply IH. intros r' Hr'. apply H. now right.
Qed.

(** [init] for an id no row carries: the store answers [null] and the
    call rejects; the accessor is left as it was. *)
Lemma init_missing_row (d : tables) (n : Z) (lg : list event) :
  fault d = None ->
  (forall r, r ∈ teams d -> row_id r <> n) ->
  TeamModel.init (TeamModel.constructor (Some n), World d lg)
  = (Threw (ModelError (JsThrown (TypeError "subdomain" VNull))),
     (TeamModel.constructor (Some n), World d (lg ++ [DbFindOne (ById (VNum n))]))).
Proof.
  intros Hok Hnone.
  apply (init_no_row (TeamModel.constructor (Some n)) (World d lg) VNull d);
    [|reflexivity].
  cbn [store TeamModel.id TeamModel.constructor].
  now rewrite findOne_ok, find_by_id_none.
Qed.
End OnTables.

(** ** The middleware *)

(** *** The response *)

Lemma truthy_spec (v : value) : truthy v = false <-> Falsy v.
Proof.
  split.
  - destruct v as [| |b|n|s|items|props]; cbn [truthy]; try discriminate;
      try (intros _; constructor).
    + destruct b; [discriminate | constructor].
    + intros H. apply negb_false_iff, Z.eqb_eq in H. subst n. constructor.
    + intros H. apply negb_false_iff, String.eqb_eq in H. subst s. constructor.
  - intros []; reflexivity.
Qed.

Lemma to_int32_small (n : Z) :
  -2147483648 <= n < 2147483648 -> to_int32 (VNum n) = n.
Proof.
  intros H. unfold to_int32. rewrite Z.mod_small by lia. lia.
Qed.

(** Sending on a response not yet sent, with a status Node accepts. *)
Lemma deliver_valid (n : Z) (p : Express.payload) :
  100 <= n <= 999 ->
  Express.deliver p (Express.Response (VNum n) None)
  = (Returned tt,
     Express.Response (VNum n)
       (Some (n, if Express.bodiless n then Express.NoBody else p))).
Proof.
  intros H. unfold Express.deliver. cbn [Express.statusCode].
  rewrite to_int32_small by lia.
  assert ((n <? 100) || (999 <? n) = false) as ->; [|reflexivity].
  apply orb_false_iff. split; apply Z.ltb_ge; lia.
Qed.

Lemma deliver_with_body (n : Z) (p : Express.payload) :
  200 <= n <= 999 -> n <> 204 -> n <> 304 ->
  Express.deliver p (Express.Response (VNum n) None)
  = (Returned tt, Express.Response (VNum n) (Some (n, p))).
Proof.
  intros H H204 H304. rewrite deliver_valid by lia.
  assert (Express.bodiless n = false) as ->; [|reflexivity].
  unfold Express.bodiless.
  apply orb_false_iff. split; [apply orb_false_iff; split; apply Z.eqb_neq; lia|].
  apply andb_false_iff. right. apply Z.leb_gt. lia.
Qed.

Section MiddlewareFacts.
Context {S : Type} `{!Database S}.

(** [verifyTeamName] on a response not yet sent, by the outcome of its
    two tests. *)
Lemma verifyTeamName_run
    (req : ITeamURLRequest) (status0 : value) (w : world S) :
  verifyTeamName req (Express.Response status0 None, w)
  = match truthy (newURL (url_body req)),
          test_anchored_plus subdomain_class (to_string (newURL (url_body req))) with
    | true, true =>
        (Returned tt,
         (Express.Response status0 None, World (store w) (log w ++ [Next])))
    | false, true =>
        (Returned tt,
         (Express.Response (VNum 400)
            (Some (400, Express.Json (error_body msg_required))),
          World (store w)
            (log w ++ [ResStatus (VNum 400); ResJson (error_body msg_required)])))
    | true, false =>
        (Returned tt,
         (Express.Response (VNum 400)
            (Some (400, Express.Json (error_body msg_charset))),
          World (store w)
            (log w ++ [ResStatus (VNum 400); ResJson (error_body msg_charset)])))
    | false, false =>
        (Threw Express.ERR_HTTP_HEADERS_SENT,
         (Express.Response (VNum 400)
            (Some (400, Express.Json (error_body msg_required))),
          World (store w)
            (log w ++ [ResStatus (VNum 400); ResJson (error_body msg_required);
                       ResStatus (VNum 400); ResJson (error_body msg_charset)])))
    end.
Proof.
  unfold verifyTeamName, res_status, res_json, res_call.
  destruct (truthy _), (test_anchored_plus _ _); cbn [negb];
    unfold_monad;
    cbn [Express.status Express.json Express.written Express.statusCode store log];
    rewrite ?(deliver_with_body 400) by lia;
    cbn [Express.status Express.json Express.written Express.statusCode store log];
    rewrite ?(deliver_with_body 400) by lia;
    rewrite <- ?app_assoc; reflexivity.
Qed.

(** The subdomain label the middleware derives from a well-formed
    origin. *)
Lemma verifySubdomain_label (req : ITeamRequest) (w : world S) (o host : string) :
  origin req = Some o ->
  index (split "://" o) 1 = VStr host ->
  verifySubdomain (req, w)
  = (let subdomain := VStr (before_first "." host) in
     if truthy subdomain && negb (strict_eq_str subdomain "www")
     then
       try_catch
         (let* email := of_outcome (get (user req) "email") in
          let* data := lift (call (DbQuery subdomain_sql [subdomain; email])
                                  (db_query subdomain_sql [subdomain; email])) in
          match data with
          | [] =>
              lift (emit (ResStatus (VNum 403))) ;;;
              lift (emit ResEnd)
          | row :: _ =>
              let id := default VUndefined (row !! "id") in
              set_obj (set_team {| team_id := id; team_subdomain := subdomain |}) ;;;
              lift (emit Next)
          end)
         (fun e =>
            lift (emit (ConsoleError e)) ;;;
            lift (emit (ResStatus (VNum 500))) ;;;
            lift (emit ResEnd))
     else lift (emit Next)) (req, w).
Proof.
  intros Ho Hhost. unfold verifySubdomain at 1.
  cbv beta iota zeta delta [bind get_obj of_outcome].
  rewrite Ho. cbn [of_option split_of]. rewrite Hhost. cbn [split_of].
  now rewrite split_head.
Qed.
End MiddlewareFacts.

(** ** The controller *)

Section ControllerFacts.
Context {S : Type} `{!IntegrationModel S}.

Lemma postSave_on_res_threw
    (req : ITeamRequest) (res : Express.response) (w w1 : world S) (e : value) :
  save_integration req w = (Threw e, w1) ->
  postSave_on_res req (res, w) = save_failed e (res, w1).
Proof.
  intros H. unfold postSave_on_res.
  cbv beta iota zeta delta [bind try_catch lift]. now rewrite H.
Qed.

Lemma postSave_on_res_succeeded
    (req : ITeamRequest) (status0 : value) (w w1 : world S) :
  save_integration req w = (Returned tt, w1) ->
  postSave_on_res req (Express.Response status0 None, w)
  = (Returned tt,
     (Express.Response (VNum 200) (Some (200, Express.Text "OK")),
      World (store w1) (log w1 ++ [ResSendStatus 200]))).
Proof.
  intros H. unfold postSave_on_res, res_sendStatus_200, res_call.
  cbv beta iota zeta delta [bind try_catch lift]. now rewrite H.
Qed.

(** The [catch] block on an error without a status. *)
Lemma save_failed_without_status
    (e status : value) (status0 : value) (w : world S) :
  get e "status" = Returned status ->
  truthy status = false ->
  save_failed e (Express.Response status0 None, w)
  = (Returned tt,
     (Express.Response (VNum 500) (Some (500, Express.NoBody)),
      World (store w) (log w ++ [ConsoleError e; ResStatus (VNum 500); ResSend]))).
Proof.
  intros Hs Hfalsy.
  unfold save_failed, js_or, res_status, res_json, res_send, res_call.
  unfold_monad. rewrite Hs, Hfalsy. cbv beta iota zeta. rewrite Hfalsy.
  cbn [Express.status Express.send Express.written Express.statusCode store log].
  rewrite <- !app_assoc. reflexivity.
Qed.

(** The [catch] block on an error whose status is a code that admits a
    body. *)
Lemma save_failed_with_status
    (e message : value) (n : Z) (status0 : value) (w : world S) :
  get e "status" = Returned (VNum n) ->
  get e "message" = Returned message ->
  200 <= n <= 999 -> n <> 204 -> n <> 304 ->
  save_failed e (Express.Response status0 None, w)
  = (if truthy message
     then
       (Returned tt,
        (Express.Response (VNum n)
           (Some (n, Express.Json (VObj {[ "error" := message ]}))),
         World (store w)
           (log w ++ [ConsoleError e; ResStatus (VNum n);
                      ResJson (VObj {[ "error" := message ]})])))
     else
       (Returned tt,
        (Express.Response (VNum n) (Some (n, Express.NoBody)),
         World (store w) (log w ++ [ConsoleError e; ResStatus (VNum n); ResSend])))).
Proof.
  intros Hs Hm Hn H204 H304.
  assert (truthy (VNum n) = true) as Htruthy.
  { cbn [truthy]. apply negb_true_iff, Z.eqb_neq. lia. }
  unfold save_failed, js_or, res_status, res_json, res_send, res_call.
  unfold_monad. rewrite Hs, Htruthy. cbv beta iota zeta. rewrite ?Htruthy, Hm.
  destruct (truthy message);
    cbn [Express.status Express.send Express.json Express.written
         Express.statusCode store log];
    rewrite (deliver_with_body n) by assumption;
    rewrite <- !app_assoc; reflexivity.
Qed.

(** A thrown [null] or [undefined] makes the [catch] block itself
    raise, after the error was logged. *)
Lemma save_failed_nullish (e : value) (res : Express.response) (w : world S) :
  nullish e = true ->
  save_failed e (res, w) = (Threw (TypeError "status" e), (res, emitted w [ConsoleError e])).
Proof.
  intros H. unfold save_failed. unfold_monad.
  destruct e; try discriminate; reflexivity.
Qed.

(** [postSave] on the response of its request. *)
Lemma postSave_succeeded (req : ITeamRequest) (w w1 : world S) :
  save_integration req w = (Returned tt, w1) ->
  postSave req w = (Returned tt, emitted w1 [ResSendStatus 200]).
Proof.
  intros H. unfold postSave, on_fresh_response, Express.fresh.
  now rewrite (postSave_on_res_succeeded req (VNum 200) w w1 H).
Qed.

Lemma postSave_failed_without_status
    (req : ITeamRequest) (w w1 : world S) (e status : value) :
  save_integration req w = (Threw e, w1) ->
  get e "status" = Returned status ->
  truthy status = false ->
  postSave req w
  = (Returned tt, emitted w1 [ConsoleError e; ResStatus (VNum 500); ResSend]).
Proof.
  intros H Hs Hfalsy. unfold postSave, on_fresh_response, Express.fresh.
  rewrite (postSave_on_res_threw req _ w w1 e H).
  now rewrite (save_failed_without_status e status (VNum 200) w1 Hs Hfalsy).
Qed.

Lemma postSave_failed_nullish (req : ITeamRequest) (w w1 : world S) (e : value) :
  save_integration req w = (Threw e, w1) ->
  nullish e = true ->
  postSave req w = (Threw (TypeError "status" e), emitted w1 [ConsoleError e]).
Proof.
  intros H Hnull. unfold postSave, on_fresh_response.
  rewrite (postSave_on_res_threw req _ w w1 e H).
  now rewrite (save_failed_nullish e Express.fresh w1 Hnull).
Qed.
End ControllerFacts.

(** * The claims *)

(** C1. The claim reads: when [findOne] returns no matching row, [init]
    logs a warning, marks the accessor ready and returns the id without
    throwing.  On the code, with a store that has no team and the id 7,
    [findOne] resolves to [null], reading [team.subdomain] raises a
    [TypeError] inside the [try], and [init] rejects with the
    [ModelError] wrapping it: no warning is logged and [initialized]
    stays [false]. *)
Theorem init_missing_row_rejects :
  TeamModel.init (TeamModel.constructor (Some 7), World TableStore.empty [])
  = (Threw (ModelError (JsThrown (TypeError "subdomain" VNull))),
     ({| TeamModel.initialized := false; TeamModel.id := VNum 7;
         TeamModel.subdomain := VUndefined; TeamModel.customer_id := VUndefined |},
      World TableStore.empty [DbFindOne (ById (VNum 7))])).
Proof.
  apply (init_missing_row TableStore.empty 7 []); [reflexivity|].
  intros r Hr. inversion Hr.
Qed.

(** C8. On an accessor whose [initialized] flag is still [false] (fresh
    from the constructor, or after an [init]/[create] that did not
    complete) each of [getSubdomain], [getCustomerID], [setSubdomain],
    [setCustomerID] and [hasActiveSubscription] fails with the "not
    initialized" error; the accessor, the store and the log of calls are
    unchanged, so no write reaches the gateway. *)
Theorem uninitialized_accessor_rejects
    {S : Type} `{!Database S} `{!StripeService S}
    (this : TeamModel.t) (w : world S) (newURL customer_id : string) :
  TeamModel.initialized this = false ->
  TeamModel.getSubdomain (this, w) = (Threw ModelError_NO_INIT, (this, w))
  /\ TeamModel.getCustomerID (this, w) = (Threw ModelError_NO_INIT, (this, w))
  /\ TeamModel.setSubdomain newURL (this, w) = (Threw ModelError_NO_INIT, (this, w))
  /\ TeamModel.setCustomerID customer_id (this, w) = (Threw ModelError_NO_INIT, (this, w))
  /\ TeamModel.hasActiveSubscription (this, w) = (Threw ModelError_NO_INIT, (this, w)).
Proof.
  intros Hfresh.
  unfold TeamModel.getSubdomain, TeamModel.getCustomerID, TeamModel.setSubdomain,
    TeamModel.setCustomerID, TeamModel.hasActiveSubscription.
  unfold_monad. rewrite Hfresh. repeat split.
Qed.

Lemma uninitialized_accessor_rejects_witness :
  TeamModel.initialized (TeamModel.constructor (Some 7)) = false
  /\ TeamModel.getSubdomain (TeamModel.constructor (Some 7), World TableStore.empty [])
     = (Threw ModelError_NO_INIT, (TeamModel.constructor (Some 7), World TableStore.empty []))
  /\ TeamModel.setCustomerID "cus_1" (TeamModel.constructor (Some 7), World TableStore.empty [])
     = (Threw ModelError_NO_INIT, (TeamModel.constructor (Some 7), World TableStore.empty [])).
Proof.
  split; [reflexivity|].
  pose proof (uninitialized_accessor_rejects
                (TeamModel.constructor (Some 7)) (World TableStore.empty [])
                "acme" "cus_1" eq_refl) as H.
  split; [apply H | apply H].
Defined.

(** C7. On the relational store, [available(db, subdomain)] resolves to
    [false] exactly when some team row carries that very subdomain and to
    [true] otherwise; when the store faults, the fault is rethrown wrapped
    in a [ModelError]. *)
Theorem available_iff_no_row
    (d : TableStore.tables) (lg : list event) (subdomain : string) :
  match TableStore.fault d with
  | None =>
      exists b : bool,
        TeamModel.available subdomain (World d lg)
        = (Returned b, World d (lg ++ [DbFindOne (BySubdomain (VStr subdomain))]))
        /\ (b = false <->
            exists r, r ∈ TableStore.teams d /\ TableStore.row_subdomain r = subdomain)
  | Some e =>
      TeamModel.available subdomain (World d lg)
      = (Threw (ModelError (JsThrown e)),
         World d (lg ++ [DbFindOne (BySubdomain (VStr subdomain))]))
  end.
Proof.
  destruct (TableStore.fault d) as [e|] eqn:Hfault.
  - apply (available_fault subdomain (World d lg) e d).
    now apply findOne_fault.
  - eexists. split.
    + eapply (available_found subdomain (World d lg)).
      now apply findOne_ok.
    + destruct (List.find _ (TableStore.teams d)) as [r|] eqn:Hfind.
      * rewrite row_value_truthy. split; [intros _|reflexivity].
        exists r. now apply find_by_subdomain_some.
      * cbn [truthy negb]. split; [discriminate|].
        intros (r & Hin & Hsub).
        rewrite find_by_subdomain_none in Hfind. now destruct (Hfind r Hin).
Qed.

(** C6. Round trip on the relational store: when no team row carries the
    subdomain "acme", [create("acme")] resolves to the new team's id and
    [findTeamByURL] on the host "acme.example.com" then resolves to a row
    with that same id. *)
Theorem create_acme_then_resolve
    (d : TableStore.tables) (this : TeamModel.t) (lg : list event) :
  TableStore.fault d = None ->
  (forall r, r ∈ TableStore.teams d -> TableStore.row_subdomain r <> "acme") ->
  exists (id : value) (this' : TeamModel.t) (w' w'' : world TableStore.tables)
         (found : value),
    TeamModel.create "acme" (this, World d lg) = (Returned id, (this', w'))
    /\ TeamModel.findTeamByURL "acme.example.com" w' = (Returned found, w'')
    /\ get found "id" = Returned id
    /\ get found "subdomain" = Returned (VStr "acme").
Proof.
  intros Hok Hfresh.
  destruct (create_then_find d this lg "acme" "example.com" Hok)
    as (this' & w' & w'' & found & Hc & _ & _ & Hf & Hid & Hsub).
  - now apply not_occurs.
  - exact Hfresh.
  - exists (VNum (TableStore.serial d)), this', w', w'', found. auto.
Qed.

Lemma create_acme_then_resolve_witness :
  TableStore.fault TableStore.empty = None
  /\ exists (id : value) (this' : TeamModel.t) (w' w'' : world TableStore.tables)
            (found : value),
       TeamModel.create "acme" (TeamModel.constructor None, World TableStore.empty [])
       = (Returned id, (this', w'))
       /\ TeamModel.findTeamByURL "acme.example.com" w' = (Returned found, w'')
       /\ get found "id" = Returned id
       /\ get found "subdomain" = Returned (VStr "acme").
Proof.
  split; [reflexivity|].
  apply (create_acme_then_resolve TableStore.empty (TeamModel.constructor None) []).
  - reflexivity.
  - intros r Hr. inversion Hr.
Defined.

(** C4. On a response not yet sent: when [newURL] is a non-empty string
    made only of the characters [0-9a-z-], [verifyTeamName] calls
    [next()] once and leaves the response untouched; when the string
    holds a character outside that class, the response goes out with
    status 400 and the JSON body [{error: "newURL can only conatain
    lowercase letters, numbers and dashes"}], and [next()] is not
    called. *)
Theorem verifyTeamName_charset
    {S : Type} (req : ITeamURLRequest) (res : Express.response) (w : world S)
    (s : string) :
  newURL (url_body req) = VStr s ->
  Express.written res = None ->
  (s <> EmptyString /\ (forall c, c ∈ chars s -> subdomain_char c) ->
   verifyTeamName req (res, w)
   = (Returned tt, (res, World (store w) (log w ++ [Next]))))
  /\ ((exists c, c ∈ chars s /\ ~ subdomain_char c) ->
      verifyTeamName req (res, w)
      = (Returned tt,
         (Express.Response (VNum 400)
            (Some (400,
                   Express.Json
                     (VObj {[ "error" :=
                                VStr "newURL can only conatain lowercase letters, numbers and dashes" ]}))),
          World (store w)
            (log w ++
             [ResStatus (VNum 400);
              ResJson
                (VObj {[ "error" :=
                           VStr "newURL can only conatain lowercase letters, numbers and dashes" ]})])))).
Proof.
  intros Hs Hunsent. destruct res as [status0 sent]. cbn in Hunsent. subst sent.
  rewrite verifyTeamName_run, Hs. cbn [to_string truthy]. split.
  - intros Hok. pose proof Hok as [Hne _].
    apply test_subdomain_spec in Hok. rewrite Hok.
    apply String.eqb_neq in Hne. now rewrite Hne.
  - intros (c & Hin & Hbad).
    assert (test_anchored_plus subdomain_class s = false) as ->.
    { apply not_true_is_false. rewrite test_subdomain_spec. intros [_ H]. auto. }
    assert (String.eqb s EmptyString = false) as ->.
    { apply String.eqb_neq. intros ->. inversion Hin. }
    reflexivity.
Qed.

Lemma verifyTeamName_charset_witness :
  verifyTeamName {| url_body := {| newURL := VStr "acme-2" |} |}
    (Express.fresh, World TableStore.empty [])
  = (Returned tt, (Express.fresh, World TableStore.empty [Next]))
  /\ verifyTeamName {| url_body := {| newURL := VStr "Acme" |} |}
       (Express.fresh, World TableStore.empty [])
     = (Returned tt,
        (Express.Response (VNum 400)
           (Some (400,
                  Express.Json
                    (VObj {[ "error" :=
                               VStr "newURL can only conatain lowercase letters, numbers and dashes" ]}))),
         World TableStore.empty
           [ResStatus (VNum 400);
            ResJson
              (VObj {[ "error" :=
                         VStr "newURL can only conatain lowercase letters, numbers and dashes" ]})])).
Proof.
  split.
  - apply (verifyTeamName_charset
             {| url_body := {| newURL := VStr "acme-2" |} |}
             Express.fresh (World TableStore.empty []) "acme-2" eq_refl eq_refl).
    apply test_subdomain_spec. reflexivity.
  - apply (verifyTeamName_charset
             {| url_body := {| newURL := VStr "Acme" |} |}
             Express.fresh (World TableStore.empty []) "Acme" eq_refl eq_refl).
    exists "A"%char. split; [left|].
    intros H. apply class_matches_spec in H. discriminate.
Defined.




(** C3. For a request whose origin yields a non-empty subdomain label
    other than "www", once the join query has answered: on an empty
    result set [verifySubdomain] writes status 403, ends the response
    without a body and does not call [next()]; on a non-empty one the
    request comes out with [team] holding the id of the first row and
    the label, its other fields as they were, and [next()] is called
    without writing a response. *)
Theorem verifySubdomain_lookup
    {S : Type} `{!Database S} (req : ITeamRequest) (w : world S)
    (o host label : string) (email : value)
    (data : list (gmap string value)) (s' : S) :
  origin req = Some o ->
  index (split "://" o) 1 = VStr host ->
  index (split "." host) 0 = VStr label ->
  label <> EmptyString ->
  label <> "www" ->
  get (user req) "email" = Returned email ->
  db_query subdomain_sql [VStr label; email] (store w) = (Returned data, s') ->
  (data = [] ->
   verifySubdomain (req, w)
   = (Returned tt,
      (req, World s' (log w ++ [DbQuery subdomain_sql [VStr label; email];
                                ResStatus (VNum 403); ResEnd]))))
  /\ (forall row rest, data = row :: rest ->
      verifySubdomain (req, w)
      = (Returned tt,
         ({| origin := origin req; user := user req; body := body req;
             team := Some {| team_id := default VUndefined (row !! "id");
                             team_subdomain := VStr label |} |},
          World s' (log w ++ [DbQuery subdomain_sql [VStr label; email]; Next])))).
Proof.
  intros Ho Hhost Hlabel Hne Hwww Hemail Hq.
  rewrite (verifySubdomain_label req w o host Ho Hhost).
  rewrite split_head in Hlabel. injection Hlabel as ->.
  apply String.eqb_neq in Hne, Hwww.
  cbn [truthy strict_eq_str]. rewrite Hne, Hwww. cbn [negb andb].
  unfold_monad. rewrite Hemail, Hq.
  split.
  - intros ->. cbn [log store]. now rewrite <- !app_assoc.
  - intros row rest ->. cbn [log store]. now rewrite <- !app_assoc.
Qed.

Lemma verifySubdomain_lookup_witness :
  verifySubdomain
    (request_from (Some "https://acme.example.com") "bob@else.test" VUndefined,
     World TableStore.acme [])
  = (Returned tt,
     (request_from (Some "https://acme.example.com") "bob@else.test" VUndefined,
      World TableStore.acme
        [DbQuery subdomain_sql [VStr "acme"; VStr "bob@else.test"];
         ResStatus (VNum 403); ResEnd]))
  /\ verifySubdomain
       (request_from (Some "https://acme.example.com") "ann@acme.test" VUndefined,
        World TableStore.acme [])
     = (Returned tt,
        ({| origin := Some "https://acme.example.com";
            user := VObj {[ "email" := VStr "ann@acme.test" ]};
            body := VUndefined;
            team := Some {| team_id := VNum 7; team_subdomain := VStr "acme" |} |},
         World TableStore.acme
           [DbQuery subdomain_sql [VStr "acme"; VStr "ann@acme.test"]; Next])).
Proof.
  split.
  - destruct (verifySubdomain_lookup
                (request_from (Some "https://acme.example.com") "bob@else.test" VUndefined)
                (World TableStore.acme [])
                "https://acme.example.com" "acme.example.com" "acme"
                (VStr "bob@else.test") [] TableStore.acme)
      as [Hnone _];
      [reflexivity | reflexivity | reflexivity | discriminate | discriminate
      | reflexivity | reflexivity | ].
    apply Hnone. reflexivity.
  - destruct (verifySubdomain_lookup
                (request_from (Some "https://acme.example.com") "ann@acme.test" VUndefined)
                (World TableStore.acme [])
                "https://acme.example.com" "acme.example.com" "acme"
                (VStr "ann@acme.test") [ {[ "id" := VNum 7 ]} ] TableStore.acme)
      as [_ Hsome];
      [reflexivity | reflexivity | reflexivity | discriminate | discriminate
      | reflexivity | reflexivity | ].
    exact (Hsome {[ "id" := VNum 7 ]} [] eq_refl).
Defined.

(** C9. When the leading label of the origin host (the part before the
    first dot) is empty or is "www", [verifySubdomain] calls [next()] and
    does nothing else: no query reaches the store and [req.team] is not
    set. *)
Theorem verifySubdomain_root_tenant
    {S : Type} `{!Database S} (req : ITeamRequest) (w : world S) (o host : string) :
  origin req = Some o ->
  index (split "://" o) 1 = VStr host ->
  before_first "." host = EmptyString \/ before_first "." host = "www" ->
  verifySubdomain (req, w) = (Returned tt, (req, emitted w [Next])).
Proof.
  intros Ho Hhost Hlabel.
  rewrite (verifySubdomain_label req w o host Ho Hhost).
  destruct Hlabel as [-> | ->]; reflexivity.
Qed.

Lemma verifySubdomain_root_tenant_witness :
  before_first "." "www.example.com" = "www"
  /\ verifySubdomain
       (request_from (Some "https://www.example.com") "ann@acme.test" VUndefined,
        World TableStore.acme [])
     = (Returned tt,
        (request_from (Some "https://www.example.com") "ann@acme.test" VUndefined,
         World TableStore.acme [Next])).
Proof.
  split; [reflexivity|].
  apply (verifySubdomain_root_tenant
           (request_from (Some "https://www.example.com") "ann@acme.test" VUndefined)
           (World TableStore.acme []) "https://www.example.com" "www.example.com");
    [reflexivity | reflexivity | right; reflexivity].
Defined.

(** C10. When the [Origin] header is absent, or present without the
    separator "://", extracting the subdomain raises a [TypeError] before
    the [try]: [verifySubdomain] rejects with it, and the request, the
    store and the log are untouched (no [next()], no 403, no 500). *)
Theorem verifySubdomain_malformed_origin
    {S : Type} `{!Database S} (req : ITeamRequest) (w : world S) :
  origin req = None \/ (exists o, origin req = Some o /\ ~ occurs "://" o) ->
  verifySubdomain (req, w) = (Threw (TypeError "split" VUndefined), (req, w)).
Proof.
  intros H. unfold verifySubdomain.
  cbv beta iota zeta delta [bind get_obj of_outcome].
  destruct H as [-> | (o & -> & Hno)].
  - reflexivity.
  - cbn [of_option split_of]. now rewrite (split_absent "://" o Hno).
Qed.

Lemma verifySubdomain_malformed_origin_witness :
  ~ occurs "://" "acme.example.com"
  /\ verifySubdomain
       (request_from (Some "acme.example.com") "ann@acme.test" VUndefined,
        World TableStore.acme [])
     = (Threw (TypeError "split" VUndefined),
        (request_from (Some "acme.example.com") "ann@acme.test" VUndefined,
         World TableStore.acme []))
  /\ verifySubdomain (request_from None "ann@acme.test" VUndefined, World TableStore.acme [])
     = (Threw (TypeError "split" VUndefined),
        (request_from None "ann@acme.test" VUndefined, World TableStore.acme [])).
Proof.
  split; [now apply not_occurs|]. split.
  - apply (verifySubdomain_malformed_origin
             (request_from (Some "acme.example.com") "ann@acme.test" VUndefined)
             (World TableStore.acme [])).
    right. exists "acme.example.com". split; [reflexivity | now apply not_occurs].
  - apply (verifySubdomain_malformed_origin
             (request_from None "ann@acme.test" VUndefined) (World TableStore.acme [])).
    left. reflexivity.
Defined.

(** C2, as the code has it.  On a response not yet sent: when the
    integration steps throw an error [e] whose [status] is absent
    (falsy), [postSave] logs it and the response goes out with status
    500 and no body; when [e.status] is a status code from 200 to 999
    other than 204 and 304, the response goes out with that status, and
    with the JSON body [{error: e.message}] exactly when [e.message] is
    present (not falsy), with no body otherwise.  When the steps succeed
    the only call is [res.sendStatus(200)], and the response goes out
    with status 200 and the text "OK" as its body. *)
Theorem postSave_response
    {S : Type} `{!IntegrationModel S}
    (req : ITeamRequest) (res : Express.response) (w w1 : world S) :
  Express.written res = None ->
  (save_integration req w = (Returned tt, w1) ->
   postSave_on_res req (res, w)
   = (Returned tt,
      (Express.Response (VNum 200) (Some (200, Express.Text "OK")),
       World (store w1) (log w1 ++ [ResSendStatus 200]))))
  /\ (forall e status,
        save_integration req w = (Threw e, w1) ->
        get e "status" = Returned status ->
        Falsy status ->
        postSave_on_res req (res, w)
        = (Returned tt,
           (Express.Response (VNum 500) (Some (500, Express.NoBody)),
            World (store w1)
              (log w1 ++ [ConsoleError e; ResStatus (VNum 500); ResSend]))))
  /\ (forall e n message,
        save_integration req w = (Threw e, w1) ->
        get e "status" = Returned (VNum n) ->
        get e "message" = Returned message ->
        200 <= n <= 999 -> n <> 204 -> n <> 304 ->
        (~ Falsy message ->
         postSave_on_res req (res, w)
         = (Returned tt,
            (Express.Response (VNum n)
               (Some (n, Express.Json (VObj {[ "error" := message ]}))),
             World (store w1)
               (log w1 ++ [ConsoleError e; ResStatus (VNum n);
                           ResJson (VObj {[ "error" := message ]})]))))
        /\ (Falsy message ->
            postSave_on_res req (res, w)
            = (Returned tt,
               (Express.Response (VNum n) (Some (n, Express.NoBody)),
                World (store w1)
                  (log w1 ++ [ConsoleError e; ResStatus (VNum n); ResSend]))))).
Proof.
  intros Hunsent. destruct res as [status0 sent]. cbn in Hunsent. subst sent.
  split; [|split].
  - apply postSave_on_res_succeeded.
  - intros e status He Hs Hfalsy.
    rewrite (postSave_on_res_threw req _ w w1 e He).
    apply (save_failed_without_status e status); [exact Hs|].
    now apply truthy_spec.
  - intros e n message He Hs Hm Hn H204 H304.
    rewrite (postSave_on_res_threw req _ w w1 e He).
    rewrite (save_failed_with_status e message n status0 w1 Hs Hm Hn H204 H304).
    split.
    + intros Hpresent. destruct (truthy message) eqn:Ht; [reflexivity|].
      apply truthy_spec in Ht. contradiction.
    + intros Hfalsy. apply truthy_spec in Hfalsy. now rewrite Hfalsy.
Qed.

Lemma postSave_response_witness :
  postSave_on_res save_request
    (Express.fresh, World (TableStore.failing duplicate_error) [])
  = (Returned tt,
     (Express.Response (VNum 409)
        (Some (409, Express.Json (VObj {[ "error" := VStr "duplicate" ]}))),
      World (TableStore.failing duplicate_error)
        [ConsoleError duplicate_error; ResStatus (VNum 409);
         ResJson (VObj {[ "error" := VStr "duplicate" ]})]))
  /\ postSave_on_res save_request
       (Express.fresh, World (TableStore.failing (VObj {[ "message" := VStr "boom" ]})) [])
     = (Returned tt,
        (Express.Response (VNum 500) (Some (500, Express.NoBody)),
         World (TableStore.failing (VObj {[ "message" := VStr "boom" ]}))
           [ConsoleError (VObj {[ "message" := VStr "boom" ]});
            ResStatus (VNum 500); ResSend]))
  /\ postSave_on_res save_request (Express.fresh, World TableStore.acme [])
     = (Returned tt,
        (Express.Response (VNum 200) (Some (200, Express.Text "OK")),
         World TableStore.acme [ResSendStatus 200])).
Proof.
  split; [|split].
  - destruct (postSave_response save_request Express.fresh
                (World (TableStore.failing duplicate_error) [])
                (World (TableStore.failing duplicate_error) []) eq_refl)
      as (_ & _ & Hstatus).
    destruct (Hstatus duplicate_error 409 (VStr "duplicate"))
      as [Hbody _]; [reflexivity | reflexivity | reflexivity | lia | lia | lia |].
    apply Hbody. intros H. inversion H.
  - destruct (postSave_response save_request Express.fresh
                (World (TableStore.failing (VObj {[ "message" := VStr "boom" ]})) [])
                (World (TableStore.failing (VObj {[ "message" := VStr "boom" ]})) [])
                eq_refl)
      as (_ & Habsent & _).
    apply (Habsent (VObj {[ "message" := VStr "boom" ]}) VUndefined);
      [reflexivity | reflexivity | constructor].
  - destruct (postSave_response save_request Express.fresh
                (World TableStore.acme []) (World TableStore.acme []) eq_refl)
      as (Hok & _).
    apply Hok. reflexivity.
Defined.

(** C2, as the claim states it, fails in three places.  On success the
    body is not empty: [res.sendStatus(200)] sends the text "OK".  An
    error whose status Node does not accept (9999) makes [res.json]
    raise inside the [catch]: [postSave] rejects and nothing is sent.
    An error with status 204 and a message goes out without a body. *)
Lemma postSave_response_counterexample :
  (postSave_on_res save_request (Express.fresh, World TableStore.acme [])
   = (Returned tt,
      (Express.Response (VNum 200) (Some (200, Express.Text "OK")),
       World TableStore.acme [ResSendStatus 200]))
   /\ Express.Text "OK" <> Express.NoBody)
  /\ postSave_on_res save_request
       (Express.fresh,
        World (TableStore.failing
                 (VObj (<["status" := VNum 9999]> (<["message" := VStr "duplicate"]> ∅))))
          [])
     = (Threw (Express.ERR_HTTP_INVALID_STATUS_CODE (VNum 9999)),
        (Express.Response (VNum 9999) None,
         World (TableStore.failing
                  (VObj (<["status" := VNum 9999]> (<["message" := VStr "duplicate"]> ∅))))
           [ConsoleError
              (VObj (<["status" := VNum 9999]> (<["message" := VStr "duplicate"]> ∅)));
            ResStatus (VNum 9999);
            ResJson (VObj {[ "error" := VStr "duplicate" ]})]))
  /\ postSave_on_res save_request
       (Express.fresh,
        World (TableStore.failing
                 (VObj (<["status" := VNum 204]> (<["message" := VStr "gone" ]> ∅))))
          [])
     = (Returned tt,
        (Express.Response (VNum 204) (Some (204, Express.NoBody)),
         World (TableStore.failing
                  (VObj (<["status" := VNum 204]> (<["message" := VStr "gone"]> ∅))))
           [ConsoleError
              (VObj (<["status" := VNum 204]> (<["message" := VStr "gone"]> ∅)));
            ResStatus (VNum 204);
            ResJson (VObj {[ "error" := VStr "gone" ]})])).
Proof.
  split; [split; [reflexivity | discriminate]|].
  split; reflexivity.
Qed.

(** * Further properties of the code *)

(** ** The accessor once it is ready *)

Section AccessorFacts.
Context {S : Type} `{!Database S} `{!StripeService S}.

Lemma getSubdomain_ready (this : TeamModel.t) (w : world S) :
  TeamModel.initialized this = true ->
  TeamModel.getSubdomain (this, w) = (Returned (TeamModel.subdomain this), (this, w)).
Proof.
  intros H. unfold TeamModel.getSubdomain. unfold_monad. now rewrite H.
Qed.

Lemma getCustomerID_ready (this : TeamModel.t) (w : world S) :
  TeamModel.initialized this = true ->
  TeamModel.getCustomerID (this, w) = (Returned (TeamModel.customer_id this), (this, w)).
Proof.
  intros H. unfold TeamModel.getCustomerID. unfold_monad. now rewrite H.
Qed.

Lemma setSubdomain_run
    (this : TeamModel.t) (w : world S) (newURL : string)
    (r : outcome value value) (s' : S) :
  TeamModel.initialized this = true ->
  teams_update (ById (TeamModel.id this)) (SetSubdomain newURL) (store w) = (r, s') ->
  TeamModel.setSubdomain newURL (this, w)
  = (wrapped r,
     (TeamModel.Build true (TeamModel.id this) (VStr newURL) (TeamModel.customer_id this),
      World s' (log w ++ [DbUpdate (ById (TeamModel.id this)) (SetSubdomain newURL)]))).
Proof.
  intros Hready Hupd.
  unfold TeamModel.setSubdomain, TeamModel.db_teams_update. unfold_monad.
  rewrite Hready. cbv beta iota zeta.
  cbn [TeamModel.id TeamModel.initialized TeamModel.subdomain TeamModel.customer_id].
  rewrite Hupd, Hready. now destruct r.
Qed.

Lemma setCustomerID_run
    (this : TeamModel.t) (w : world S) (customer_id : string)
    (r : outcome value value) (s' : S) :
  TeamModel.initialized this = true ->
  teams_update (ById (TeamModel.id this)) (SetCustomerId customer_id) (store w) = (r, s') ->
  TeamModel.setCustomerID customer_id (this, w)
  = (wrapped r,
     (TeamModel.Build true (TeamModel.id this) (TeamModel.subdomain this) (VStr customer_id),
      World s' (log w ++ [DbUpdate (ById (TeamModel.id this)) (SetCustomerId customer_id)]))).
Proof.
  intros Hready Hupd.
  unfold TeamModel.setCustomerID, TeamModel.db_teams_update. unfold_monad.
  rewrite Hready. cbv beta iota zeta.
  cbn [TeamModel.id TeamModel.initialized TeamModel.subdomain TeamModel.customer_id].
  rewrite Hupd, Hready. now destruct r.
Qed.

Lemma create_run_falsy
    (this : TeamModel.t) (w : world S) (newURL : string) (v : value) (s' : S) :
  teams_insert newURL (store w) = (Returned v, s') ->
  truthy v = false ->
  TeamModel.create newURL (this, w)
  = (Threw (ModelError
              (ModelError_message "Team was not created. Please verify model integrity")),
     (this, World s' (log w ++ [DbInsert newURL]))).
Proof.
  intros Hins Hfalsy.
  unfold TeamModel.create, TeamModel.db_teams_insert. unfold_monad.
  now rewrite Hins, Hfalsy.
Qed.

Lemma create_threw_wrapped
    (newURL : string) (this : TeamModel.t) (w : world S) (e : thrown)
    (st : TeamModel.t * world S) :
  TeamModel.create newURL (this, w) = (Threw e, st) -> exists cause, e = ModelError cause.
Proof.
  unfold TeamModel.create. unfold try_catch at 1.
  destruct (bind _ _ (this, w)) as [[i|e0] st0]; [discriminate|].
  unfold throw. intros H. injection H as <- _. now exists e0.
Qed.

Lemma init_threw_wrapped
    (this : TeamModel.t) (w : world S) (e : thrown) (st : TeamModel.t * world S) :
  TeamModel.init (this, w) = (Threw e, st) -> exists cause, e = ModelError cause.
Proof.
  unfold TeamModel.init. unfold try_catch at 1.
  destruct (bind _ _ (this, w)) as [[i|e0] st0]; [discriminate|].
  unfold throw. intros H. injection H as <- _. now exists e0.
Qed.

Lemma create_returned
    (newURL : string) (this this' : TeamModel.t) (w w' : world S) (i : value) :
  TeamModel.create newURL (this, w) = (Returned i, (this', w')) ->
  this' = TeamModel.Build true i (TeamModel.subdomain this) (TeamModel.customer_id this).
Proof.
  unfold TeamModel.create, TeamModel.db_teams_insert, TeamModel.prop.
  unfold_monad.
  destruct (teams_insert newURL (store w)) as [[newTeam|e0] s']; [|discriminate].
  destruct newTeam as [| |b|n|s|items|props]; cbn [get truthy]; try discriminate.
  - destruct b; [|discriminate]. intros H. now injection H as <- <- _.
  - destruct (negb (n =? 0)); [|discriminate]. intros H. now injection H as <- <- _.
  - destruct (negb (String.eqb s EmptyString)); [|discriminate].
    intros H. now injection H as <- <- _.
  - intros H. now injection H as <- <- _.
  - intros H. now injection H as <- <- _.
Qed.
End AccessorFacts.

(** X1. When the store answers [init] with a row that has a subdomain,
    [init] resolves to the accessor's id after exactly one [findOne] by
    that id, and the accessor is ready: [getSubdomain] and
    [getCustomerID] then return the row's [subdomain] and [customer_id]
    (which may be [null]) without touching the store. *)
Theorem init_caches_row
    {S : Type} `{!Database S}
    (this : TeamModel.t) (w : world S) (props : gmap string value) (s' : S) :
  teams_findOne (ById (TeamModel.id this)) (store w) = (Returned (VObj props), s') ->
  truthy (default VUndefined (props !! "subdomain")) = true ->
  exists (this' : TeamModel.t) (w' : world S),
    TeamModel.init (this, w) = (Returned (TeamModel.id this), (this', w'))
    /\ w' = World s' (log w ++ [DbFindOne (ById (TeamModel.id this))])
    /\ TeamModel.id this' = TeamModel.id this
    /\ TeamModel.getSubdomain (this', w')
       = (Returned (default VUndefined (props !! "subdomain")), (this', w'))
    /\ TeamModel.getCustomerID (this', w')
       = (Returned (default VUndefined (props !! "customer_id")), (this', w')).
Proof.
  intros Hrow Hsub. eexists _, _.
  split; [exact (init_row_found this w props s' Hrow Hsub)|].
  split; [reflexivity|]. split; [reflexivity|].
  split; [now rewrite getSubdomain_ready | now rewrite getCustomerID_ready].
Qed.

Lemma init_caches_row_witness :
  exists (this' : TeamModel.t) (w' : world TableStore.tables),
    TeamModel.init (TeamModel.constructor (Some 7), World TableStore.acme [])
    = (Returned (VNum 7), (this', w'))
    /\ TeamModel.getSubdomain (this', w') = (Returned (VStr "acme"), (this', w'))
    /\ TeamModel.getCustomerID (this', w') = (Returned VNull, (this', w')).
Proof.
  destruct (init_caches_row (TeamModel.constructor (Some 7)) (World TableStore.acme [])
              (<["id" := VNum 7]>
                 (<["subdomain" := VStr "acme"]> (<["customer_id" := VNull]> ∅)))
              TableStore.acme)
    as (this' & w' & Hinit & _ & _ & Hsub & Hcus); [reflexivity | reflexivity |].
  exists this', w'. split; [exact Hinit|]. split; [exact Hsub | exact Hcus].
Defined.

(** X2. When the store answers [init] with an object whose [subdomain]
    is missing or empty, [init] still resolves to the id: it logs the
    warning, marks the accessor ready and leaves the cached fields as they
    were, so a later [getSubdomain] succeeds with the old value
    ([undefined] on a fresh accessor) instead of failing. *)
Theorem init_without_subdomain_marks_ready
    {S : Type} `{!Database S}
    (this : TeamModel.t) (w : world S) (props : gmap string value) (s' : S) :
  teams_findOne (ById (TeamModel.id this)) (store w) = (Returned (VObj props), s') ->
  truthy (default VUndefined (props !! "subdomain")) = false ->
  exists (this' : TeamModel.t) (w' : world S),
    TeamModel.init (this, w) = (Returned (TeamModel.id this), (this', w'))
    /\ w' = World s' (log w ++ [DbFindOne (ById (TeamModel.id this));
                                ConsoleWarn TeamModel.warn_no_team])
    /\ TeamModel.initialized this' = true
    /\ TeamModel.getSubdomain (this', w') = (Returned (TeamModel.subdomain this), (this', w'))
    /\ TeamModel.getCustomerID (this', w')
       = (Returned (TeamModel.customer_id this), (this', w')).
Proof.
  intros Hrow Hsub. eexists _, _.
  split; [exact (init_row_without_subdomain this w props s' Hrow Hsub)|].
  split; [reflexivity|]. split; [reflexivity|].
  split; [now rewrite getSubdomain_ready | now rewrite getCustomerID_ready].
Qed.

Lemma init_without_subdomain_marks_ready_witness :
  exists (this' : TeamModel.t) (w' : world TableStore.tables),
    TeamModel.init (TeamModel.constructor (Some 3), World unnamed_team_store [])
    = (Returned (VNum 3), (this', w'))
    /\ log w' = [DbFindOne (ById (VNum 3)); ConsoleWarn TeamModel.warn_no_team]
    /\ TeamModel.getSubdomain (this', w') = (Returned VUndefined, (this', w')).
Proof.
  destruct (init_without_subdomain_marks_ready
              (TeamModel.constructor (Some 3)) (World unnamed_team_store [])
              (<["id" := VNum 3]>
                 (<["subdomain" := VStr EmptyString]> (<["customer_id" := VNull]> ∅)))
              unnamed_team_store)
    as (this' & w' & Hinit & -> & _ & Hsub & _); [reflexivity | reflexivity |].
  eexists _, _. split; [exact Hinit|]. split; [reflexivity | exact Hsub].
Defined.

(** X3. [init] and [create] never reject with anything but a
    [ModelError], and a call that rejects leaves the accessor exactly as
    it was: in particular it is not marked ready. *)
Theorem init_create_reject_cleanly
    {S : Type} `{!Database S} (this : TeamModel.t) (w : world S) :
  (forall e this' w',
      TeamModel.init (this, w) = (Threw e, (this', w')) ->
      this' = this /\ exists cause, e = ModelError cause)
  /\ (forall newURL e this' w',
        TeamModel.create newURL (this, w) = (Threw e, (this', w')) ->
        this' = this /\ exists cause, e = ModelError cause).
Proof.
  split.
  - intros e this' w' H. split; [now apply (init_threw_same this this' w w' e)|].
    now apply (init_threw_wrapped this w e (this', w')).
  - intros newURL e this' w' H.
    split; [now apply (create_threw_same newURL this this' w w' e)|].
    now apply (create_threw_wrapped newURL this w e (this', w')).
Qed.

Lemma init_create_reject_cleanly_witness :
  TeamModel.init (TeamModel.constructor (Some 7), World TableStore.empty [])
  = (Threw (ModelError (JsThrown (TypeError "subdomain" VNull))),
     (TeamModel.constructor (Some 7),
      World TableStore.empty [DbFindOne (ById (VNum 7))]))
  /\ TeamModel.constructor (Some 7) = TeamModel.constructor (Some 7)
  /\ exists cause,
       ModelError (JsThrown (TypeError "subdomain" VNull)) = ModelError cause.
Proof.
  split; [reflexivity|].
  destruct (init_create_reject_cleanly
              (TeamModel.constructor (Some 7)) (World TableStore.empty []))
    as [Hinit _].
  apply (Hinit (ModelError (JsThrown (TypeError "subdomain" VNull)))
           (TeamModel.constructor (Some 7))
           (World TableStore.empty [DbFindOne (ById (VNum 7))])).
  reflexivity.
Defined.

(** X4. [create] sets the id and the ready flag only: it does not cache
    the subdomain it has just inserted.  After a successful
    [create(newURL)] the accessor holds the new id, and [getSubdomain]
    returns what the accessor held before ([undefined] on a fresh one),
    not [newURL]. *)
Theorem create_keeps_cached_fields
    {S : Type} `{!Database S}
    (newURL : string) (this this' : TeamModel.t) (w w' : world S) (i : value) :
  TeamModel.create newURL (this, w) = (Returned i, (this', w')) ->
  TeamModel.initialized this' = true
  /\ TeamModel.id this' = i
  /\ TeamModel.getSubdomain (this', w') = (Returned (TeamModel.subdomain this), (this', w'))
  /\ TeamModel.getCustomerID (this', w')
     = (Returned (TeamModel.customer_id this), (this', w')).
Proof.
  intros H. apply create_returned in H. subst this'.
  split; [reflexivity|]. split; [reflexivity|].
  split; [now rewrite getSubdomain_ready | now rewrite getCustomerID_ready].
Qed.

Lemma create_keeps_cached_fields_witness :
  TeamModel.getSubdomain
    (TeamModel.Build true (VNum 1) VUndefined VUndefined,
     World (TableStore.after_insert "acme" TableStore.empty) [DbInsert "acme"])
  = (Returned VUndefined,
     (TeamModel.Build true (VNum 1) VUndefined VUndefined,
      World (TableStore.after_insert "acme" TableStore.empty) [DbInsert "acme"])).
Proof.
  destruct (create_keeps_cached_fields "acme" (TeamModel.constructor None)
              (TeamModel.Build true (VNum 1) VUndefined VUndefined)
              (World TableStore.empty [])
              (World (TableStore.after_insert "acme" TableStore.empty) [DbInsert "acme"])
              (VNum 1))
    as (_ & _ & Hsub & _); [reflexivity | exact Hsub].
Defined.

(** X5. When the store resolves the insert of [create] to nothing
    truthy, [create] rejects with the "Team was not created" error, which
    its own [catch] has wrapped in a second [ModelError]; the accessor is
    unchanged and the insert is the only call made. *)
Theorem create_without_row_rejects
    {S : Type} `{!Database S}
    (this : TeamModel.t) (w : world S) (newURL : string) (v : value) (s' : S) :
  teams_insert newURL (store w) = (Returned v, s') ->
  truthy v = false ->
  TeamModel.create newURL (this, w)
  = (Threw (ModelError
              (ModelError_message "Team was not created. Please verify model integrity")),
     (this, World s' (log w ++ [DbInsert newURL]))).
Proof.
  intros Hins Hfalsy. now apply (create_run_falsy this w newURL v s').
Qed.

Lemma create_without_row_rejects_witness :
  TeamModel.create "acme" (TeamModel.constructor None, World tt [])
  = (Threw (ModelError
              (ModelError_message "Team was not created. Please verify model integrity")),
     (TeamModel.constructor None, World tt [DbInsert "acme"])).
Proof.
  apply (create_without_row_rejects (TeamModel.constructor None) (World tt [])
           "acme" VNull tt); reflexivity.
Defined.

(** X6. On a ready accessor [setSubdomain(newURL)] first stores
    [newURL] in memory and then issues exactly one update by the
    accessor's id; it resolves to what the update resolved to and rejects
    with the store fault wrapped in a [ModelError].  Either way the
    accessor stays ready and [getSubdomain] now returns [newURL]: after a
    rejected update the cached value is ahead of the store.  No check of
    [newURL] is made here. *)
Theorem setSubdomain_updates_memory_first
    {S : Type} `{!Database S}
    (this : TeamModel.t) (w : world S) (newURL : string)
    (r : outcome value value) (s' : S) :
  TeamModel.initialized this = true ->
  teams_update (ById (TeamModel.id this)) (SetSubdomain newURL) (store w) = (r, s') ->
  exists (this' : TeamModel.t) (w' : world S),
    TeamModel.setSubdomain newURL (this, w) = (wrapped r, (this', w'))
    /\ w' = World s' (log w ++ [DbUpdate (ById (TeamModel.id this)) (SetSubdomain newURL)])
    /\ TeamModel.id this' = TeamModel.id this
    /\ TeamModel.customer_id this' = TeamModel.customer_id this
    /\ TeamModel.getSubdomain (this', w') = (Returned (VStr newURL), (this', w')).
Proof.
  intros Hready Hupd. eexists _, _.
  split; [exact (setSubdomain_run this w newURL r s' Hready Hupd)|].
  split; [reflexivity|]. split; [reflexivity|]. split; [reflexivity|].
  now rewrite getSubdomain_ready.
Qed.

Lemma setSubdomain_updates_memory_first_witness :
  exists (this' : TeamModel.t) (w' : world TableStore.tables),
    TeamModel.setSubdomain "beta"
      (TeamModel.Build true (VNum 7) (VStr "acme") VNull,
       World (TableStore.failing (VStr "connection lost")) [])
    = (Threw (ModelError (JsThrown (VStr "connection lost"))), (this', w'))
    /\ store w' = TableStore.failing (VStr "connection lost")
    /\ TeamModel.getSubdomain (this', w') = (Returned (VStr "beta"), (this', w')).
Proof.
  destruct (setSubdomain_updates_memory_first
              (TeamModel.Build true (VNum 7) (VStr "acme") VNull)
              (World (TableStore.failing (VStr "connection lost")) [])
              "beta" (Threw (VStr "connection lost"))
              (TableStore.failing (VStr "connection lost")))
    as (this' & w' & Hset & -> & _ & _ & Hget); [reflexivity | reflexivity |].
  eexists _, _. split; [exact Hset|]. split; [reflexivity | exact Hget].
Defined.

(** X7. On a ready accessor [setCustomerID(customer_id)] stores the value
    in memory, then issues exactly one update by the accessor's id, and
    wraps a store fault in a [ModelError]; the subdomain is untouched and
    [getCustomerID] returns the new value even when the update was
    rejected. *)
Theorem setCustomerID_updates_memory_first
    {S : Type} `{!Database S}
    (this : TeamModel.t) (w : world S) (customer_id : string)
    (r : outcome value value) (s' : S) :
  TeamModel.initialized this = true ->
  teams_update (ById (TeamModel.id this)) (SetCustomerId customer_id) (store w) = (r, s') ->
  exists (this' : TeamModel.t) (w' : world S),
    TeamModel.setCustomerID customer_id (this, w) = (wrapped r, (this', w'))
    /\ w' = World s' (log w ++ [DbUpdate (ById (TeamModel.id this))
                                         (SetCustomerId customer_id)])
    /\ TeamModel.id this' = TeamModel.id this
    /\ TeamModel.subdomain this' = TeamModel.subdomain this
    /\ TeamModel.getCustomerID (this', w') = (Returned (VStr customer_id), (this', w')).
Proof.
  intros Hready Hupd. eexists _, _.
  split; [exact (setCustomerID_run this w customer_id r s' Hready Hupd)|].
  split; [reflexivity|]. split; [reflexivity|]. split; [reflexivity|].
  now rewrite getCustomerID_ready.
Qed.

Lemma setCustomerID_updates_memory_first_witness :
  exists (this' : TeamModel.t) (w' : world TableStore.tables),
    TeamModel.setCustomerID "cus_1"
      (TeamModel.Build true (VNum 7) (VStr "acme") VNull, World TableStore.acme [])
    = (Returned (VObj (<["id" := VNum 7]>
                       (<["subdomain" := VStr "acme"]>
                        (<["customer_id" := VStr "cus_1"]> ∅)))),
       (this', w'))
    /\ log w' = [DbUpdate (ById (VNum 7)) (SetCustomerId "cus_1")]
    /\ TeamModel.getCustomerID (this', w') = (Returned (VStr "cus_1"), (this', w')).
Proof.
  destruct (setCustomerID_updates_memory_first
              (TeamModel.Build true (VNum 7) (VStr "acme") VNull)
              (World TableStore.acme [])
              "cus_1"
              (fst (TableStore.update (ById (VNum 7)) (SetCustomerId "cus_1") TableStore.acme))
              (snd (TableStore.update (ById (VNum 7)) (SetCustomerId "cus_1") TableStore.acme)))
    as (this' & w' & Hset & -> & _ & _ & Hget); [reflexivity | reflexivity |].
  eexists _, _. split; [exact Hset|]. split; [reflexivity | exact Hget].
Defined.

(** X8. On a ready accessor [hasActiveSubscription] asks the billing
    service once, with the cached [customer_id], and hands its answer
    back as it is.  A billing fault is rethrown unwrapped (there is no
    [catch] here, so it is not a [ModelError]); the accessor and the
    [teams] table calls are untouched. *)
Theorem hasActiveSubscription_passes_through
    {S : Type} `{!Database S} `{!StripeService S}
    (this : TeamModel.t) (w : world S) (r : outcome value value) (s' : S) :
  TeamModel.initialized this = true ->
  stripe_hasActiveSubscription (TeamModel.customer_id this) (store w) = (r, s') ->
  TeamModel.hasActiveSubscription (this, w)
  = (match r with
     | Returned answer => Returned answer
     | Threw e => Threw (JsThrown e)
     end,
     (this, World s' (log w ++ [StripeHasActiveSubscription (TeamModel.customer_id this)]))).
Proof.
  intros Hready Hstripe.
  unfold TeamModel.hasActiveSubscription. unfold_monad.
  rewrite Hready. cbv beta iota zeta. rewrite Hstripe. now destruct r.
Qed.

Lemma hasActiveSubscription_passes_through_witness :
  TeamModel.hasActiveSubscription
    (TeamModel.Build true (VNum 7) (VStr "acme") (VStr "cus_1"),
     World (TableStore.failing (VStr "stripe down")) [])
  = (Threw (JsThrown (VStr "stripe down")),
     (TeamModel.Build true (VNum 7) (VStr "acme") (VStr "cus_1"),
      World (TableStore.failing (VStr "stripe down"))
        [StripeHasActiveSubscription (VStr "cus_1")])).
Proof.
  apply (hasActiveSubscription_passes_through
           (TeamModel.Build true (VNum 7) (VStr "acme") (VStr "cus_1"))
           (World (TableStore.failing (VStr "stripe down")) [])
           (Threw (VStr "stripe down")) (TableStore.failing (VStr "stripe down")));
    reflexivity.
Defined.

(** ** Round trips through the relational store *)

Section RoundTrips.
Import TableStore.

Lemma find_by_id_unique (rows : list team_row) (r : team_row) :
  (forall r1 r2, r1 ∈ rows -> r2 ∈ rows -> row_id r1 = row_id r2 -> r1 = r2) ->
  r ∈ rows ->
  List.find (matches (ById (VNum (row_id r)))) rows = Some r.
Proof.
  intros Huniq Hin.
  destruct (List.find (matches (ById (VNum (row_id r)))) rows) as [r0|] eqn:Hfind.
  - apply List.find_some in Hfind as [Hin0 Hm]. cbn [matches] in Hm.
    apply Z.eqb_eq in Hm. f_equal. apply Huniq; [now apply list_elem_of_In | exact Hin | exact Hm].
  - apply List.find_none with (x := r) in Hfind; [|now apply list_elem_of_In].
    cbn [matches] in Hfind. now rewrite Z.eqb_refl in Hfind.
Qed.

Lemma find_map_preserved (p : team_row -> bool) (g : team_row -> team_row)
    (rows : list team_row) :
  (forall r, p (g r) = p r) ->
  List.find p (List.map g rows) = option_map g (List.find p rows).
Proof.
  intros Hp. induction rows as [|r rows IH]; cbn [List.map List.find option_map].
  - reflexivity.
  - rewrite Hp. destruct (p r); [reflexivity | exact IH].
Qed.

Lemma find_last (p : team_row -> bool) (rows : list team_row) (r : team_row) :
  (forall r', r' ∈ rows -> p r' = false) -> p r = true ->
  List.find p (rows ++ [r]) = Some r.
Proof.
  intros Hnone Hr. induction rows as [|r0 rows IH]; cbn [app List.find].
  - now rewrite Hr.
  - rewrite (Hnone r0) by left. apply IH. intros r' Hr'. apply Hnone. now right.
Qed.

Lemma update_ok (c : criteria) (f : fields) (d : tables) :
  fault d = None ->
  teams_update c f d
  = (Returned (match List.find (matches c) (teams d) with
               | Some r => row_value (apply_fields f r)
               | None => VNull
               end),
     {| teams := List.map (fun r => if matches c r then apply_fields f r else r) (teams d);
        users := users d; serial := serial d; fault := fault d |}).
Proof.
  intros H. change (teams_update c f d) with (update c f d).
  unfold update, guarded. now rewrite H.
Qed.

(** [init] on a store whose lookup by id finds a row with a subdomain. *)
Lemma init_on_row (d : tables) (n : Z) (r : team_row) (lg : list event) :
  fault d = None ->
  List.find (matches (ById (VNum n))) (teams d) = Some r ->
  row_subdomain r <> EmptyString ->
  TeamModel.init (TeamModel.constructor (Some n), World d lg)
  = (Returned (VNum n),
     (TeamModel.Build true (VNum n) (VStr (row_subdomain r)) (row_customer_id r),
      World d (lg ++ [DbFindOne (ById (VNum n))]))).
Proof.
  intros Hok Hfind Hsub.
  pose proof (init_row_found (TeamModel.constructor (Some n)) (World d lg)
                (<["id" := VNum (row_id r)]>
                   (<["subdomain" := VStr (row_subdomain r)]>
                      (<["customer_id" := row_customer_id r]> ∅))) d) as H.
  cbn [store TeamModel.id TeamModel.constructor log] in H.
  rewrite findOne_ok, Hfind in H by exact Hok.
  apply H; [reflexivity|].
  apply String.eqb_neq in Hsub.
  change (negb (String.eqb (row_subdomain r) EmptyString) = true). now rewrite Hsub.
Qed.
End RoundTrips.

(** X9. Round trip of a rename through the store: on a working store
    with unique ids, after a ready accessor for an existing team calls
    [setSubdomain(newURL)] with a non-empty [newURL], a fresh accessor for
    the same id that runs [init] reads [newURL] from [getSubdomain], and
    the team's [customer_id] is the one the row had. *)
Theorem setSubdomain_then_init
    (d : TableStore.tables) (r : TableStore.team_row) (this : TeamModel.t)
    (lg : list event) (newURL : string) :
  TableStore.fault d = None ->
  unique_ids d ->
  r ∈ TableStore.teams d ->
  TeamModel.initialized this = true ->
  TeamModel.id this = VNum (TableStore.row_id r) ->
  newURL <> EmptyString ->
  exists (row : value) (this1 this2 : TeamModel.t) (w1 w2 : world TableStore.tables),
    TeamModel.setSubdomain newURL (this, World d lg) = (Returned row, (this1, w1))
    /\ TeamModel.init (TeamModel.constructor (Some (TableStore.row_id r)), w1)
       = (Returned (VNum (TableStore.row_id r)), (this2, w2))
    /\ TeamModel.getSubdomain (this2, w2) = (Returned (VStr newURL), (this2, w2))
    /\ TeamModel.getCustomerID (this2, w2)
       = (Returned (TableStore.row_customer_id r), (this2, w2)).
Proof.
  intros Hok Huniq Hin Hready Hid Hne.
  pose proof (find_by_id_unique (TableStore.teams d) r Huniq Hin) as Hfind.
  eexists _, _, _, _, _. split.
  - apply (setSubdomain_run this (World d lg) newURL (Returned _)); [exact Hready|].
    rewrite Hid. cbn [store]. now apply update_ok.
  - split.
    + apply (init_on_row _ _ (TableStore.apply_fields (SetSubdomain newURL) r)).
      * exact Hok.
      * cbn [TableStore.teams].
        rewrite find_map_preserved.
        -- rewrite Hfind. cbn [option_map TableStore.matches].
           now rewrite Z.eqb_refl.
        -- intros r0. cbn [TableStore.matches].
           now destruct (TableStore.row_id r0 =? TableStore.row_id r) eqn:Heq.
      * exact Hne.
    + split; [now rewrite getSubdomain_ready | now rewrite getCustomerID_ready].
Qed.

Lemma setSubdomain_then_init_witness :
  unique_ids TableStore.acme
  /\ exists (row : value) (this1 this2 : TeamModel.t) (w1 w2 : world TableStore.tables),
       TeamModel.setSubdomain "beta"
         (TeamModel.Build true (VNum 7) (VStr "acme") VNull, World TableStore.acme [])
       = (Returned row, (this1, w1))
       /\ TeamModel.init (TeamModel.constructor (Some 7), w1)
          = (Returned (VNum 7), (this2, w2))
       /\ TeamModel.getSubdomain (this2, w2) = (Returned (VStr "beta"), (this2, w2))
       /\ TeamModel.getCustomerID (this2, w2) = (Returned VNull, (this2, w2)).
Proof.
  assert (unique_ids TableStore.acme) as Huniq.
  { intros r1 r2 H1 H2 _.
    apply list_elem_of_singleton in H1, H2. congruence. }
  split; [exact Huniq|].
  apply (setSubdomain_then_init TableStore.acme
           {| TableStore.row_id := 7; TableStore.row_subdomain := "acme";
              TableStore.row_customer_id := VNull |}
           (TeamModel.Build true (VNum 7) (VStr "acme") VNull) [] "beta");
    [reflexivity | exact Huniq | left | reflexivity | reflexivity | discriminate].
Defined.

(** X10. Round trip of a creation through the store: on a working store
    whose serial is ahead of every id, [create(newURL)] with a non-empty
    [newURL] resolves to an id under which a fresh accessor's [init] finds
    the new team: [getSubdomain] returns [newURL] and [getCustomerID]
    returns [null]. *)
Theorem create_then_init
    (d : TableStore.tables) (this : TeamModel.t) (lg : list event) (newURL : string) :
  TableStore.fault d = None ->
  serial_ahead d ->
  newURL <> EmptyString ->
  exists (n : Z) (this1 this2 : TeamModel.t) (w1 w2 : world TableStore.tables),
    TeamModel.create newURL (this, World d lg) = (Returned (VNum n), (this1, w1))
    /\ TeamModel.init (TeamModel.constructor (Some n), w1) = (Returned (VNum n), (this2, w2))
    /\ TeamModel.getSubdomain (this2, w2) = (Returned (VStr newURL), (this2, w2))
    /\ TeamModel.getCustomerID (this2, w2) = (Returned VNull, (this2, w2)).
Proof.
  intros Hok Hahead Hne.
  eexists _, _, _, _, _. split; [now apply create_ok|]. split.
  - apply (init_on_row _ _ (TableStore.inserted newURL d)).
    + exact Hok.
    + apply find_last.
      * intros r Hr. cbn [TableStore.matches]. apply Z.eqb_neq.
        specialize (Hahead r Hr). lia.
      * cbn [TableStore.matches TableStore.inserted TableStore.row_id].
        apply Z.eqb_refl.
    + exact Hne.
  - split; [now rewrite getSubdomain_ready | now rewrite getCustomerID_ready].
Qed.

Lemma create_then_init_witness :
  serial_ahead TableStore.acme
  /\ exists (n : Z) (this1 this2 : TeamModel.t) (w1 w2 : world TableStore.tables),
       TeamModel.create "beta" (TeamModel.constructor None, World TableStore.acme [])
       = (Returned (VNum n), (this1, w1))
       /\ TeamModel.init (TeamModel.constructor (Some n), w1)
          = (Returned (VNum n), (this2, w2))
       /\ TeamModel.getSubdomain (this2, w2) = (Returned (VStr "beta"), (this2, w2))
       /\ TeamModel.getCustomerID (this2, w2) = (Returned VNull, (this2, w2)).
Proof.
  assert (serial_ahead TableStore.acme) as Hahead.
  { intros r Hr. apply list_elem_of_singleton in Hr. subst r. reflexivity. }
  split; [exact Hahead|].
  apply (create_then_init TableStore.acme (TeamModel.constructor None) [] "beta");
    [reflexivity | exact Hahead | discriminate].
Defined.

(** ** The middleware, by input *)





(** X12. On an origin that contains "://", [verifySubdomain] always
    resolves, in one of five ways: [next()] alone (root tenant); the
    query then [next()] with [req.team] set; the query then 403; an error
    logged then 500 without any query; or the query, the error logged,
    then 500.  So it calls [next()] at most once and never together with
    a response, sets [req.team] only on the way to [next()], and never
    rejects. *)
Theorem verifySubdomain_outcomes
    {S : Type} `{!Database S} (req : ITeamRequest) (w : world S) (o : string) :
  origin req = Some o ->
  occurs "://" o ->
  exists (req' : ITeamRequest) (w' : world S) (evs : list event),
    verifySubdomain (req, w) = (Returned tt, (req', w'))
    /\ log w' = log w ++ evs
    /\ ((evs = [Next] /\ req' = req)
        \/ (exists sql params tm,
              evs = [DbQuery sql params; Next] /\ req' = set_team tm req)
        \/ (exists sql params,
              evs = [DbQuery sql params; ResStatus (VNum 403); ResEnd] /\ req' = req)
        \/ (exists e,
              evs = [ConsoleError e; ResStatus (VNum 500); ResEnd] /\ req' = req)
        \/ (exists sql params e,
              evs = [DbQuery sql params; ConsoleError e; ResStatus (VNum 500); ResEnd]
              /\ req' = req)).
Proof.
  intros Ho Hocc.
  destruct (split_present "://" o) as [host Hhost]; [discriminate | exact Hocc |].
  rewrite (verifySubdomain_label req w o host Ho Hhost). cbv zeta.
  destruct (truthy (VStr (before_first "." host))
            && negb (strict_eq_str (VStr (before_first "." host)) "www")).
  - unfold_monad.
    destruct (get (user req) "email") as [email|e].
    + destruct (db_query subdomain_sql [VStr (before_first "." host); email] (store w))
        as [[data|e] s'].
      * destruct data as [|row rest].
        -- eexists _, _, _. split; [reflexivity|]. cbn [log].
           split; [now rewrite <- !app_assoc|]. right. right. left. eauto.
        -- eexists _, _, _. split; [reflexivity|]. cbn [log].
           split; [now rewrite <- !app_assoc|]. right. left. eauto.
      * eexists _, _, _. split; [reflexivity|]. cbn [log].
        split; [now rewrite <- !app_assoc|]. right. right. right. right. eauto.
    + eexists _, _, _. split; [reflexivity|]. cbn [log].
      split; [now rewrite <- !app_assoc|]. right. right. right. left. eauto.
  - unfold_monad. eexists _, _, _. split; [reflexivity|]. cbn [log].
    split; [reflexivity|]. left. split; reflexivity.
Qed.

Lemma verifySubdomain_outcomes_witness :
  occurs "://" "https://acme.example.com"
  /\ exists (req' : ITeamRequest) (w' : world TableStore.tables) (evs : list event),
       verifySubdomain
         (request_from (Some "https://acme.example.com") "ann@acme.test" VUndefined,
          World TableStore.acme [])
       = (Returned tt, (req', w'))
       /\ log w' = [] ++ evs.
Proof.
  assert (occurs "://" "https://acme.example.com") as Hocc
    by (apply contains_spec; reflexivity).
  split; [exact Hocc|].
  destruct (verifySubdomain_outcomes
              (request_from (Some "https://acme.example.com") "ann@acme.test" VUndefined)
              (World TableStore.acme []) "https://acme.example.com" eq_refl Hocc)
    as (req' & w' & evs & Hrun & Hlog & _).
  exists req', w', evs. split; [exact Hrun | exact Hlog].
Defined.

(** X13. A store fault during the tenant lookup is caught: the fault is
    logged with [console.error], the response gets status 500 and is
    ended with no body, [next()] is not called and [req.team] is not
    set. *)
Theorem verifySubdomain_store_fault
    {S : Type} `{!Database S} (req : ITeamRequest) (w : world S)
    (o host label : string) (email e : value) (s' : S) :
  origin req = Some o ->
  index (split "://" o) 1 = VStr host ->
  index (split "." host) 0 = VStr label ->
  label <> EmptyString ->
  label <> "www" ->
  get (user req) "email" = Returned email ->
  db_query subdomain_sql [VStr label; email] (store w) = (Threw e, s') ->
  verifySubdomain (req, w)
  = (Returned tt,
     (req, World s' (log w ++ [DbQuery subdomain_sql [VStr label; email];
                               ConsoleError e; ResStatus (VNum 500); ResEnd]))).
Proof.
  intros Ho Hhost Hlabel Hne Hwww Hemail Hq.
  rewrite (verifySubdomain_label req w o host Ho Hhost).
  rewrite split_head in Hlabel. injection Hlabel as ->.
  apply String.eqb_neq in Hne, Hwww.
  cbn [truthy strict_eq_str]. rewrite Hne, Hwww. cbn [negb andb].
  unfold_monad. rewrite Hemail, Hq. cbn [log store]. now rewrite <- !app_assoc.
Qed.

Lemma verifySubdomain_store_fault_witness :
  verifySubdomain
    (request_from (Some "https://acme.example.com") "ann@acme.test" VUndefined,
     World (TableStore.failing (VStr "connection lost")) [])
  = (Returned tt,
     (request_from (Some "https://acme.example.com") "ann@acme.test" VUndefined,
      World (TableStore.failing (VStr "connection lost"))
        [DbQuery subdomain_sql [VStr "acme"; VStr "ann@acme.test"];
         ConsoleError (VStr "connection lost"); ResStatus (VNum 500); ResEnd])).
Proof.
  apply (verifySubdomain_store_fault
           (request_from (Some "https://acme.example.com") "ann@acme.test" VUndefined)
           (World (TableStore.failing (VStr "connection lost")) [])
           "https://acme.example.com" "acme.example.com" "acme"
           (VStr "ann@acme.test") (VStr "connection lost")
           (TableStore.failing (VStr "connection lost")));
    try reflexivity; discriminate.
Defined.

(** X14. When the request carries no authenticated user ([req.user] is
    [undefined] or [null]) and the origin names a tenant, reading
    [req.user.email] raises inside the [try]: the [TypeError] is logged,
    the response is 500 with no body, and no query reaches the store. *)
Theorem verifySubdomain_without_user
    {S : Type} `{!Database S} (req : ITeamRequest) (w : world S)
    (o host label : string) :
  origin req = Some o ->
  index (split "://" o) 1 = VStr host ->
  index (split "." host) 0 = VStr label ->
  label <> EmptyString ->
  label <> "www" ->
  nullish (user req) = true ->
  verifySubdomain (req, w)
  = (Returned tt,
     (req, emitted w [ConsoleError (TypeError "email" (user req));
                      ResStatus (VNum 500); ResEnd])).
Proof.
  intros Ho Hhost Hlabel Hne Hwww Huser.
  rewrite (verifySubdomain_label req w o host Ho Hhost).
  rewrite split_head in Hlabel. injection Hlabel as ->.
  apply String.eqb_neq in Hne, Hwww.
  cbn [truthy strict_eq_str]. rewrite Hne, Hwww. cbn [negb andb].
  unfold_monad.
  destruct (user req); try discriminate; cbn [get log store];
    now rewrite <- !app_assoc.
Qed.

Lemma verifySubdomain_without_user_witness :
  verifySubdomain
    ({| origin := Some "https://acme.example.com"; user := VUndefined;
        body := VUndefined; team := None |},
     World TableStore.acme [])
  = (Returned tt,
     ({| origin := Some "https://acme.example.com"; user := VUndefined;
         body := VUndefined; team := None |},
      World TableStore.acme
        [ConsoleError (TypeError "email" VUndefined); ResStatus (VNum 500); ResEnd])).
Proof.
  apply (verifySubdomain_without_user
           {| origin := Some "https://acme.example.com"; user := VUndefined;
              body := VUndefined; team := None |}
           (World TableStore.acme [])
           "https://acme.example.com" "acme.example.com" "acme");
    try reflexivity; discriminate.
Defined.

(** ** The save handler at its edges, and after tenant resolution *)

Section SaveFacts.
Context {S : Type} `{!IntegrationModel S}.

Lemma postSave_no_team (req : ITeamRequest) (w : world S) :
  team req = None ->
  postSave req w
  = (Returned tt,
     emitted w [ConsoleError (TypeError "id" VUndefined); ResStatus (VNum 500); ResSend]).
Proof.
  intros Hteam.
  assert (save_integration req w = (Threw (TypeError "id" VUndefined), w)) as Hthrew.
  { unfold save_integration, req_team_id. unfold_monad. now rewrite Hteam. }
  now apply (postSave_failed_without_status req w w _ VUndefined Hthrew).
Qed.

Lemma postSave_no_body (req : ITeamRequest) (w : world S) (tm : ITeam) :
  team req = Some tm ->
  nullish (body req) = true ->
  postSave req w
  = (Returned tt,
     emitted w [ConsoleError (TypeError "name" (body req)); ResStatus (VNum 500); ResSend]).
Proof.
  intros Hteam Hbody.
  assert (save_integration req w = (Threw (TypeError "name" (body req)), w)) as Hthrew.
  { unfold save_integration, req_team_id. unfold_monad. rewrite Hteam.
    destruct (body req); try discriminate; reflexivity. }
  apply (postSave_failed_without_status req w w _ VUndefined Hthrew); [|reflexivity].
  destruct (body req); try discriminate; reflexivity.
Qed.
End SaveFacts.

(** X15. [postSave] on a request that has no tenant attached, or that has
    no body, fails before it reaches the integration accessor: the
    [TypeError] is logged and, as it carries no [status], the response is
    500 with no body.  The store is untouched. *)
Theorem postSave_without_tenant_or_body
    {S : Type} `{!IntegrationModel S} (req : ITeamRequest) (w : world S) :
  (team req = None ->
   postSave req w
   = (Returned tt,
      emitted w [ConsoleError (TypeError "id" VUndefined); ResStatus (VNum 500); ResSend]))
  /\ (forall tm,
        team req = Some tm ->
        nullish (body req) = true ->
        postSave req w
        = (Returned tt,
           emitted w [ConsoleError (TypeError "name" (body req));
                      ResStatus (VNum 500); ResSend])).
Proof.
  split.
  - apply postSave_no_team.
  - intros tm. apply postSave_no_body.
Qed.

Lemma postSave_without_tenant_or_body_witness :
  postSave (request_from (Some "https://www.example.com") "ann@acme.test" VUndefined)
    (World TableStore.acme [])
  = (Returned tt,
     World TableStore.acme
       [ConsoleError (TypeError "id" VUndefined); ResStatus (VNum 500); ResSend]).
Proof.
  destruct (postSave_without_tenant_or_body
              (request_from (Some "https://www.example.com") "ann@acme.test" VUndefined)
              (World TableStore.acme [])) as [Hnone _].
  apply Hnone. reflexivity.
Defined.

(** X16. Tenant resolution followed by the save handler on a root-tenant
    request: when the leading label of the origin host is empty or "www"
    and nothing has attached a tenant, [verifySubdomain] calls [next()]
    and [postSave] then answers 500 with no body, without a query and
    without touching the integration accessor. *)
Theorem root_tenant_cannot_save
    {S : Type} `{!Database S} `{!IntegrationModel S}
    (req : ITeamRequest) (w : world S) (o host : string) :
  origin req = Some o ->
  index (split "://" o) 1 = VStr host ->
  before_first "." host = EmptyString \/ before_first "." host = "www" ->
  team req = None ->
  exists (req' : ITeamRequest) (w1 : world S),
    verifySubdomain (req, w) = (Returned tt, (req', w1))
    /\ postSave req' w1
       = (Returned tt,
          emitted w [Next; ConsoleError (TypeError "id" VUndefined);
                     ResStatus (VNum 500); ResSend]).
Proof.
  intros Ho Hhost Hlabel Hteam.
  exists req, (emitted w [Next]). split.
  - rewrite (verifySubdomain_label req w o host Ho Hhost).
    destruct Hlabel as [-> | ->]; reflexivity.
  - rewrite (postSave_no_team req _ Hteam). unfold emitted. cbn [store log].
    now rewrite <- app_assoc.
Qed.

Lemma root_tenant_cannot_save_witness :
  exists (req' : ITeamRequest) (w1 : world TableStore.tables),
    verifySubdomain
      (request_from (Some "https://www.example.com") "ann@acme.test" VUndefined,
       World TableStore.acme [])
    = (Returned tt, (req', w1))
    /\ postSave req' w1
       = (Returned tt,
          World TableStore.acme
            [Next; ConsoleError (TypeError "id" VUndefined); ResStatus (VNum 500); ResSend]).
Proof.
  apply (root_tenant_cannot_save
           (request_from (Some "https://www.example.com") "ann@acme.test" VUndefined)
           (World TableStore.acme []) "https://www.example.com" "www.example.com");
    [reflexivity | reflexivity | right; reflexivity | reflexivity].
Defined.

(** X17. Tenant resolution followed by the save handler on a tenant
    request: when the join answers with rows, the integration accessor
    is built from the id of the first row and the [name] of the body,
    never from a team id in the body; when its [init] and [save] resolve,
    the calls seen are the query, [next()] and [res.sendStatus(200)]. *)
Theorem resolved_tenant_saves
    {S : Type} `{!Database S} `{!IntegrationModel S}
    (req : ITeamRequest) (w : world S) (o host label : string)
    (email name authentication providers : value)
    (row : gmap string value) (rest : list (gmap string value)) (s1 s2 s3 : S) :
  origin req = Some o ->
  index (split "://" o) 1 = VStr host ->
  index (split "." host) 0 = VStr label ->
  label <> EmptyString ->
  label <> "www" ->
  get (user req) "email" = Returned email ->
  db_query subdomain_sql [VStr label; email] (store w) = (Returned (row :: rest), s1) ->
  get (body req) "name" = Returned name ->
  get (body req) "authentication" = Returned authentication ->
  get (body req) "providers" = Returned providers ->
  integration_init
    {| integration_team := default VUndefined (row !! "id"); integration_name := name |} s1
  = (Returned tt, s2) ->
  integration_save
    {| integration_team := default VUndefined (row !! "id"); integration_name := name |}
    authentication providers s2
  = (Returned tt, s3) ->
  exists (req' : ITeamRequest) (w1 : world S),
    verifySubdomain (req, w) = (Returned tt, (req', w1))
    /\ postSave req' w1
       = (Returned tt,
          World s3 (log w ++ [DbQuery subdomain_sql [VStr label; email];
                              Next; ResSendStatus 200])).
Proof.
  intros Ho Hhost Hlabel Hne Hwww Hemail Hq Hname Hauth Hprov Hinit Hsave.
  rewrite split_head in Hlabel. injection Hlabel as Hlabel. subst label.
  eexists _, _. split.
  - rewrite (verifySubdomain_label req w o host Ho Hhost).
    apply String.eqb_neq in Hne, Hwww.
    cbn [truthy strict_eq_str]. rewrite Hne, Hwww. cbn [negb andb].
    unfold_monad. rewrite Hemail, Hq. reflexivity.
  - rewrite (postSave_succeeded _ _
               (World s3 (log w ++ [DbQuery subdomain_sql
                                      [VStr (before_first "." host); email]] ++ [Next]))).
    + unfold emitted. cbn [store log]. now rewrite <- ?app_assoc.
    + unfold save_integration, req_team_id, run. unfold_monad.
      cbn [team set_team team_id body store log].
      rewrite Hname. cbv beta iota zeta. rewrite Hinit. cbv beta iota zeta.
      rewrite Hauth, Hprov. cbv beta iota zeta. cbn [store log]. rewrite Hsave.
      now rewrite <- !app_assoc.
Qed.

Lemma resolved_tenant_saves_witness :
  exists (req' : ITeamRequest) (w1 : world TableStore.tables),
    verifySubdomain
      (request_from (Some "https://acme.example.com") "ann@acme.test" (body save_request),
       World TableStore.acme [])
    = (Returned tt, (req', w1))
    /\ postSave req' w1
       = (Returned tt,
          World TableStore.acme
            [DbQuery subdomain_sql [VStr "acme"; VStr "ann@acme.test"];
             Next; ResSendStatus 200]).
Proof.
  apply (resolved_tenant_saves
           (request_from (Some "https://acme.example.com") "ann@acme.test" (body save_request))
           (World TableStore.acme [])
           "https://acme.example.com" "acme.example.com" "acme"
           (VStr "ann@acme.test") (VStr "slack")
           (VObj {[ "token" := VStr "x" ]}) (VArr [VStr "slack"])
           {[ "id" := VNum 7 ]} [] TableStore.acme TableStore.acme TableStore.acme);
    try reflexivity; discriminate.
Defined.

(** X18. When the integration steps reject with [undefined] or [null]
    (a promise rejected without a reason), the [catch] block of
    [postSave] logs it and then raises itself on [e.status]: the handler
    rejects with that [TypeError] and no response is written. *)
Theorem postSave_rejects_on_nullish_error
    {S : Type} `{!IntegrationModel S} (req : ITeamRequest) (w w1 : world S) (e : value) :
  save_integration req w = (Threw e, w1) ->
  nullish e = true ->
  postSave req w = (Threw (TypeError "status" e), emitted w1 [ConsoleError e]).
Proof.
  intros Hthrew Hnull.
  now apply (postSave_failed_nullish req w w1 e).
Qed.

Lemma postSave_rejects_on_nullish_error_witness :
  postSave save_request (World (TableStore.failing VUndefined) [])
  = (Threw (TypeError "status" VUndefined),
     World (TableStore.failing VUndefined) [ConsoleError VUndefined]).
Proof.
  apply (postSave_rejects_on_nullish_error save_request
           (World (TableStore.failing VUndefined) [])
           (World (TableStore.failing VUndefined) []) VUndefined);
    reflexivity.
Defined.

(** ** The static lookups *)

(** X19. [findTeamByURL] looks the team up under the part of its
    argument before the first dot, the whole argument when it has no dot
    (a scheme or a port is not stripped), with exactly one [findOne].  It
    resolves to whatever [findOne] resolved to, [null] included, and
    rejects with the store fault wrapped in a [ModelError]. *)
Theorem findTeamByURL_leading_label
    {S : Type} `{!Database S} (url : string) (w : world S)
    (r : outcome value value) (s' : S) :
  teams_findOne (BySubdomain (VStr (before_first "." url))) (store w) = (r, s') ->
  TeamModel.findTeamByURL url w
  = (wrapped r,
     World s' (log w ++ [DbFindOne (BySubdomain (VStr (before_first "." url)))])).
Proof.
  intros Hfind. unfold TeamModel.findTeamByURL, TeamModel.db_teams_findOne.
  rewrite split_head. unfold_monad. rewrite Hfind. now destruct r.
Qed.

Lemma findTeamByURL_leading_label_witness :
  before_first "." "https://acme.example.com" = "https://acme"
  /\ TeamModel.findTeamByURL "https://acme.example.com" (World TableStore.acme [])
     = (Returned VNull,
        World TableStore.acme [DbFindOne (BySubdomain (VStr "https://acme"))]).
Proof.
  split; [reflexivity|].
  apply (findTeamByURL_leading_label "https://acme.example.com"
           (World TableStore.acme []) (Returned VNull) TableStore.acme).
  reflexivity.
Defined.

(** X20. The two static lookups agree on the relational store: for
    every host, [available] on its leading label resolves to [true]
    exactly when [findTeamByURL] on the host resolves to [null]; when it
    resolves to [false], [findTeamByURL] resolves to a row carrying that
    label as its subdomain. *)
Theorem available_agrees_with_findTeamByURL
    (d : TableStore.tables) (lg lg' : list event) (url : string) :
  TableStore.fault d = None ->
  exists (free : bool) (found : value) (w1 w2 : world TableStore.tables),
    TeamModel.available (before_first "." url) (World d lg) = (Returned free, w1)
    /\ TeamModel.findTeamByURL url (World d lg') = (Returned found, w2)
    /\ (free = true <-> found = VNull)
    /\ (free = false -> get found "subdomain" = Returned (VStr (before_first "." url))).
Proof.
  intros Hok. eexists _, _, _, _. split; [|split].
  - eapply (available_found (before_first "." url) (World d lg)).
    now apply findOne_ok.
  - now apply findTeamByURL_ok.
  - cbn [store].
    destruct (List.find _ (TableStore.teams d)) as [r|] eqn:Hfind.
    + rewrite row_value_truthy. cbn [negb]. split.
      * split; discriminate.
      * intros _. apply find_by_subdomain_some in Hfind as [_ Hsub].
        now rewrite <- Hsub.
    + cbn [truthy negb]. split; [split; reflexivity | discriminate].
Qed.

Lemma available_agrees_with_findTeamByURL_witness :
  TableStore.fault TableStore.acme = None
  /\ exists (free : bool) (found : value) (w1 w2 : world TableStore.tables),
       TeamModel.available (before_first "." "acme.example.com") (World TableStore.acme [])
       = (Returned free, w1)
       /\ TeamModel.findTeamByURL "acme.example.com" (World TableStore.acme [])
          = (Returned found, w2)
       /\ (free = true <-> found = VNull)
       /\ (free = false ->
           get found "subdomain" = Returned (VStr (before_first "." "acme.example.com"))).
Proof.
  split; [reflexivity|].
  apply (available_agrees_with_findTeamByURL TableStore.acme [] [] "acme.example.com").
  reflexivity.
Defined.

(** X21. On a working relational store a subdomain stops being
    available once a team was created with it: after [create(newURL)],
    [available(db, newURL)] resolves to [false], whatever it resolved to
    before. *)
Theorem create_then_unavailable
    (d : TableStore.tables) (this : TeamModel.t) (lg : list event) (newURL : string) :
  TableStore.fault d = None ->
  exists (i : value) (this' : TeamModel.t) (w1 w2 : world TableStore.tables),
    TeamModel.create newURL (this, World d lg) = (Returned i, (this', w1))
    /\ TeamModel.available newURL w1 = (Returned false, w2).
Proof.
  intros Hok. eexists _, _, _, _. split; [now apply create_ok|].
  erewrite available_found; [|now apply findOne_ok].
  cbn [store].
  destruct (List.find _ (TableStore.teams (TableStore.after_insert newURL d)))
    as [r|] eqn:Hfind.
  - now rewrite row_value_truthy.
  - rewrite find_by_subdomain_none in Hfind.
    destruct (Hfind (TableStore.inserted newURL d)); [|reflexivity].
    cbn [TableStore.teams TableStore.after_insert].
    apply elem_of_app. right. left.
Qed.

Lemma create_then_unavailable_witness :
  TableStore.fault TableStore.empty = None
  /\ exists (i : value) (this' : TeamModel.t) (w1 w2 : world TableStore.tables),
       TeamModel.create "acme" (TeamModel.constructor None, World TableStore.empty [])
       = (Returned i, (this', w1))
       /\ TeamModel.available "acme" w1 = (Returned false, w2).
Proof.
  split; [reflexivity|].
  apply (create_then_unavailable TableStore.empty (TeamModel.constructor None) [] "acme").
  reflexivity.
Defined.
